(** * Browser-side views of the genome designer: a shallow embedding

    The development follows the three JavaScript/CoffeeScript sources

    - [datatable_component.js]  ([gd.DataTableComponent] and the
      CoffeeScript admin page [CeleryManager.HomeView]),
    - [ref_genome_list_view.js] ([gd.RefGenomeListView]),
    - [sample_list_view.js]     ([gd.RefGenomeView], the single
      Reference-Genome view with its download form).

    JavaScript values are a small JSON-like inductive type, objects used
    as dictionaries are [gmap string JsValue], the DOM pieces a method
    touches are record fields, and every call into jQuery, DataTables or
    the inherited base class that the sources do not define is recorded
    as an [Effect] in the order in which the method performs it. *)

From Stdlib Require Import Ascii.
From stdpp Require Import gmap strings list fin_maps pretty.

Set Default Proof Using "Type".
Set Warnings "-register-all".

(** ** JavaScript values *)

Module Js.

Inductive JsValue : Type :=
  | VUndefined
  | VNull
  | VBool (b : bool)
  | VNum (n : Z)                     (* integer-valued numbers *)
  | VStr (s : string)
  | VArr (xs : list JsValue)
  | VObj (o : gmap string JsValue).

(** ToBoolean. *)
Definition truthy (v : JsValue) : bool :=
  match v with
  | VUndefined | VNull => false
  | VBool b => b
  | VNum n => negb (n =? 0)%Z
  | VStr s => negb (String.eqb s EmptyString)
  | VArr _ | VObj _ => true
  end.

(** The unary [!] operator. *)
Definition js_not (v : JsValue) : JsValue := VBool (negb (truthy v)).

(** [v === s] for a string literal [s] (CoffeeScript compiles [==] to
    the strict comparison). *)
Definition strict_eq_str (v : JsValue) (s : string) : bool :=
  match v with
  | VStr t => String.eqb t s
  | _ => false
  end.

(** [o[k]] on an object: a missing property reads as [undefined]. *)
Definition prop (o : gmap string JsValue) (k : string) : JsValue :=
  default VUndefined (o !! k).

(** [this.options.k] for an option that may not have been passed. *)
Definition orUndefined (o : option JsValue) : JsValue :=
  default VUndefined o.

Definition join (sep : string) (parts : list string) : string :=
  match parts with
  | [] => EmptyString
  | p :: ps => fold_left (fun acc q => acc +:+ sep +:+ q) ps p
  end.

(** ToString, for integer-valued numbers below 10^21 in magnitude. *)
Fixpoint toString (v : JsValue) : string :=
  match v with
  | VUndefined => "undefined"
  | VNull => "null"
  | VBool true => "true"
  | VBool false => "false"
  | VNum n => pretty n
  | VStr s => s
  | VArr xs =>
      join ","
        (map (fun x => match x with
                       | VUndefined | VNull => EmptyString
                       | _ => toString x
                       end) xs)
  | VObj _ => "[object Object]"
  end.

(** [_.extend(dst, src)]: every enumerable property of [src] is
    assigned into [dst]; properties of [dst] that [src] lacks stay. *)
Definition extend (dst src : gmap string JsValue) : gmap string JsValue :=
  src ∪ dst.

(** How a statement sequence ends: normally, or by a thrown error that
    leaves the state as it was when the error was raised. *)
Inductive JsError : Type :=
  | ReferenceError (name : string)
  | TypeError (what : string).

Inductive Completion (A : Type) : Type :=
  | Normal (a : A)
  | Throw (e : JsError) (a : A).
Arguments Normal {A} a.
Arguments Throw {A} e a.

Definition stateOf {A} (c : Completion A) : A :=
  match c with Normal a | Throw _ a => a end.

Definition completed {A} (c : Completion A) : bool :=
  match c with Normal _ => true | Throw _ _ => false end.

(** The double-quote character, for markup literals. *)
Definition dq : string := String (Ascii.ascii_of_nat 34) EmptyString.

End Js.
Export Js.

Abbreviation JsObj := (gmap string JsValue).

(** ** What a method does to the page and to the network

    One constructor per call into a library or into code of the base
    classes, with the arguments the call receives. *)

Module Browser.

(** The handle that [$(sel).dataTable(params)] returns. *)
Record Widget : Type := mkWidget {
  w_selector : string;
  w_params : JsObj
}.

Inductive Effect : Type :=
  | Get (url data : JsValue)               (* $.get(url, data, callback) *)
  | ControlsGet (template data : JsValue)  (* addControlsFromTemplate(template, data) *)
  | Post (url : JsValue) (body : string)   (* $.ajax type: 'post' *)
  | FnClearTable (w : Widget)              (* this.datatable.fnClearTable() *)
  | SetHtml (markup : string)              (* this.$el.html(markup) *)
  | DataTableInit (w : Widget)             (* $(sel).dataTable(params) *)
  | CreateMasterCheckbox
  | ListenToCheckboxes
  | LengthSelectpicker                     (* addClass('selectpicker').selectpicker(...) *)
  | Destroy                                (* component.destroy() *)
  | AddClass (selector cls : string)       (* $(selector).addClass(cls) *)
  | BindClick (selector : string) (arg : JsValue)
  | ListenTo (event : string)
  | Alert (message : JsValue)
  | Block
  | Unblock.

(** Requests that leave the browser. *)
Definition is_request (e : Effect) : bool :=
  match e with
  | Get _ _ | ControlsGet _ _ | Post _ _ => true
  | _ => false
  end.

Definition requests (t : list Effect) : list Effect :=
  List.filter is_request t.

(** The element a view or component decorates. *)
Record Element : Type := mkElement {
  el_id : option string;                   (* the id attribute, if any *)
  el_html : string                         (* its inner HTML *)
}.

(** [el.attr('id') + suffix]: an absent attribute reads as [undefined],
    which the concatenation turns into the text "undefined". *)
Definition attrIdPlus (el : Element) (suffix : string) : string :=
  toString (match el_id el with Some i => VStr i | None => VUndefined end)
    +:+ suffix.

End Browser.
Export Browser.

(** ** gd.DataTableComponent *)

Module DataTableComponent.

(** [this.options]: each option is present or not
    ([hasOwnProperty]); [el] is always passed by the clients. *)
Record Options : Type := mkOptions {
  serverTarget : option JsValue;
  requestData : option JsValue;
  controlsTemplate : option JsValue;
  objList : option JsValue;
  fieldConfig : option JsValue;
  extraDatatableParams : option JsObj
}.

Record Component : Type := mkComponent {
  options : Options;
  el : Element;                            (* this.$el *)
  datatable : option Widget;               (* this.datatable, null = None *)
  datatableId : option string;             (* this.datatableId *)
  displayableObjList : JsValue;
  displayableFieldConfig : JsValue
}.

(** The methods [gd.DataTableComponent] inherits from
    [gd.AbstractDataTableComponent]; the base class is not part of the
    sources, so the three value-returning hooks are taken as given. *)
Class AbstractDataTableComponent : Type := {
  makeDisplayableObjectList : JsValue -> JsValue;
  makeDisplayableFieldConfig : JsValue -> JsValue;
  getDataTableParams : Component -> JsObj
}.

(** Modelled from the spec: [addControlsFromTemplate] of the absent base
    class, which "requests and injects a controls fragment beside the
    table" from the HTTP GET template endpoint; the request is what is
    recorded. *)
Definition addControlsFromTemplate (template data : JsValue) : list Effect :=
  [ControlsGet template data].

Definition set_options (c : Component) (o : Options) : Component :=
  mkComponent o (el c) (datatable c) (datatableId c)
    (displayableObjList c) (displayableFieldConfig c).

Definition set_displayable (c : Component) (objs cfg : JsValue) : Component :=
  mkComponent (options c) (el c) (datatable c) (datatableId c) objs cfg.

Definition set_response (o : Options) (objs cfg : JsValue) : Options :=
  mkOptions (serverTarget o) (requestData o) (controlsTemplate o)
    (Some objs) (Some cfg) (extraDatatableParams o).

(** The markup [updateDatatable] writes into the hook element. *)
Definition tableMarkup (id : string) : string :=
  "<table cellpadding=" +:+ dq +:+ "0" +:+ dq +:+
  " cellspacing=" +:+ dq +:+ "0" +:+ dq +:+
  " border=" +:+ dq +:+ "0" +:+ dq +:+ " " +:+
  "class=" +:+ dq +:+ "table table-striped table-bordered" +:+ dq +:+
  "id=" +:+ id +:+ ">" +:+
  "</table>".

Section Methods.
Context `{AbstractDataTableComponent}.

Definition updateDatatable (c : Component) (objs cfg : JsValue)
  : Component * list Effect :=
  (* Clear the existing datatable. *)
  let cleared :=
    match datatable c with
    | Some w => [FnClearTable w]
    | None => []
    end in
  (* Draw the table. *)
  let id := attrIdPlus (el c) "-datatable" in
  let markup := tableMarkup id in
  let c1 := mkComponent (options c) (mkElement (el_id (el c)) markup)
              (datatable c) (Some id)
              (displayableObjList c) (displayableFieldConfig c) in
  let params0 := getDataTableParams c1 in
  let params1 := extend params0 {[ "aaData" := objs; "aoColumns" := cfg ]} in
  let params2 :=
    match extraDatatableParams (options c) with
    | Some extra => extend params1 extra
    | None => params1
    end in
  let w := mkWidget ("#" +:+ id) params2 in
  (mkComponent (options c1) (el c1) (Some w) (datatableId c1)
     (displayableObjList c1) (displayableFieldConfig c1),
   cleared ++
   [SetHtml markup; DataTableInit w; CreateMasterCheckbox; ListenToCheckboxes]).

Definition render (c : Component) : Component * list Effect :=
  let '(c1, t1) :=
    updateDatatable c (displayableObjList c) (displayableFieldConfig c) in
  let t2 :=
    match controlsTemplate (options c1) with
    | Some template =>
        addControlsFromTemplate template (orUndefined (requestData (options c1)))
    | None => []
    end in
  (c1, t1 ++ t2 ++ [LengthSelectpicker]).

(** The callback [initializeFromServerTarget] hands to [$.get]; it runs
    when the response arrives. *)
Definition onServerResponse (c : Component) (response : JsObj)
  : Component * list Effect :=
  let o := set_response (options c)
             (prop response "obj_list") (prop response "field_config") in
  let c1 := set_options c o in
  let c2 := set_displayable c1
              (makeDisplayableObjectList (orUndefined (objList o)))
              (makeDisplayableFieldConfig (orUndefined (fieldConfig o))) in
  render c2.

Definition initializeFromServerTarget (c : Component)
  : Component * list Effect :=
  (c, [Get (orUndefined (serverTarget (options c)))
           (orUndefined (requestData (options c)))]).

(** [new gd.DataTableComponent(options)]: what has happened when the
    constructor returns. *)
Definition initialize (o : Options) (hook : Element)
  : Component * list Effect :=
  let c := mkComponent o hook None None VUndefined VUndefined in
  match serverTarget o with
  | Some _ => initializeFromServerTarget c
  | None =>
      let c1 := set_displayable c
                  (makeDisplayableObjectList (orUndefined (objList o)))
                  (makeDisplayableFieldConfig (orUndefined (fieldConfig o))) in
      render c1
  end.

(** Used for updating an already rendered datatable with new data. *)
Definition update (c : Component) (newObjList newFieldConfig : JsValue)
  : Component * list Effect :=
  let c1 := set_displayable c
              (makeDisplayableObjectList newObjList)
              (makeDisplayableFieldConfig newFieldConfig) in
  render c1.

(** The rows and columns the widget of a component was given. *)
Definition displayedRows (c : Component) : option JsValue :=
  w ← datatable c; w_params w !! "aaData".

Definition displayedColumns (c : Component) : option JsValue :=
  w ← datatable c; w_params w !! "aoColumns".

End Methods.

End DataTableComponent.
Export DataTableComponent.

(** ** gd.RefGenomeListView (ref_genome_list_view.js) *)

Module RefGenomeListView.

Record View : Type := mkView {
  model_uid : JsValue;                     (* this.model.get('uid') *)
  show_de_novo : JsValue;                  (* undefined until render *)
  hook : Element;                          (* #gd-ref-genome-list-view-datatable-hook *)
  datatableComponent : option Component;
  refGenomeControlsComponent : bool        (* has decorateControls created it *)
}.

(** The signals the view listens to. *)
Inductive Signal : Type :=
  | DONE_CONTROLS_REDRAW
  | MODELS_UPDATED
  | TOGGLE_DE_NOVO.

(** [(this.show_de_novo) ? 1 : 0] *)
Definition deNovoParam (v : View) : JsValue :=
  VNum (if truthy (show_de_novo v) then 1 else 0).

(** The object literal [redrawDatatable] builds. *)
Definition requestDataOf (v : View) : JsObj :=
  {[ "projectUid" := model_uid v; "show_de_novo" := deNovoParam v ]}.

Definition componentOptions (v : View) : Options :=
  mkOptions (Some (VStr "/_/ref_genomes"))
    (Some (VObj (requestDataOf v)))
    (Some (VStr "/_/templates/reference_genome_list_controls"))
    None None None.

Section Methods.
Context `{AbstractDataTableComponent}.

(** Draws or redraws the table. *)
Definition redrawDatatable (v : View) : View * list Effect :=
  let destroyed :=
    match datatableComponent v with
    | Some _ => [Destroy]
    | None => []
    end in
  let '(c, t) := initialize (componentOptions v) (hook v) in
  (mkView (model_uid v) (show_de_novo v) (hook v) (Some c)
     (refGenomeControlsComponent v),
   destroyed ++ t ++ [ListenTo "DONE_CONTROLS_REDRAW"]).

Definition render (v : View) : View * list Effect :=
  let v1 := mkView (model_uid v) (VBool true) (hook v)
              (datatableComponent v) (refGenomeControlsComponent v) in
  let '(v2, t) := redrawDatatable v1 in
  (v2, AddClass "#gd-sidenav-link-refgenomes" "active" :: t).

Definition decorateControls (v : View) : View * list Effect :=
  (mkView (model_uid v) (show_de_novo v) (hook v) (datatableComponent v) true,
   [ListenTo "MODELS_UPDATED"; ListenTo "TOGGLE_DE_NOVO"]).

(** The function bound to TOGGLE_DE_NOVO. *)
Definition toggleDeNovo (v : View) : View * list Effect :=
  redrawDatatable
    (mkView (model_uid v) (js_not (show_de_novo v)) (hook v)
       (datatableComponent v) (refGenomeControlsComponent v)).

(** A signal reaches the view only from a component the view listens
    to: DONE_CONTROLS_REDRAW from the table component, the other two
    from the controls component. *)
Definition handle (v : View) (s : Signal) : View * list Effect :=
  match s with
  | DONE_CONTROLS_REDRAW =>
      match datatableComponent v with
      | Some _ => decorateControls v
      | None => (v, [])
      end
  | MODELS_UPDATED =>
      if refGenomeControlsComponent v then redrawDatatable v else (v, [])
  | TOGGLE_DE_NOVO =>
      if refGenomeControlsComponent v then toggleDeNovo v else (v, [])
  end.

(** The request parameters the current table component was built with. *)
Definition sentRequestData (v : View) : option JsValue :=
  c ← datatableComponent v; requestData (options c).

End Methods.

End RefGenomeListView.

(** ** gd.RefGenomeView (sample_list_view.js) *)

Module RefGenomeView.

(** The hidden form [#gd-download-form]: its children, as markup, and
    one snapshot of the children per submission. *)
Record Form : Type := mkForm {
  children : list string;
  submitted : list (list string)
}.

Record View : Type := mkView {
  model_uid : JsValue;                     (* this.model.get('uid') *)
  hook : Element;                          (* #gd-ref-genome-view-datatable-hook *)
  form : Form;
  datatableComponent : option Component
}.

(** Underscore's [<%= x %>]: [null] and [undefined] print as nothing. *)
Definition interpolate (v : JsValue) : string :=
  match v with
  | VUndefined | VNull => EmptyString
  | _ => toString v
  end.

(** [_.template('<input type="hidden" name="<%= name %>"
    value="<%= value %>">', {name: name, value: value})] *)
Definition hiddenInput (name value : JsValue) : string :=
  "<input type=" +:+ dq +:+ "hidden" +:+ dq +:+
  " name=" +:+ dq +:+ interpolate name +:+ dq +:+
  " value=" +:+ dq +:+ interpolate value +:+ dq +:+ ">".

(** Helper method to append input value to form. *)
Definition _appendInputFieldToForm (f : Form) (name value : JsValue) : Form :=
  mkForm (children f ++ [hiddenInput name value]) (submitted f).

Definition empty (f : Form) : Form := mkForm [] (submitted f).

Definition submit (f : Form) : Form :=
  mkForm (children f) (submitted f ++ [children f]).

Definition set_form (v : View) (f : Form) : View :=
  mkView (model_uid v) (hook v) f (datatableComponent v).

(** [handleDownload] names [reference_genome_uid] without declaring it:
    it is not a parameter, not a local and not a property of [this], so
    the identifier is looked up in the global scope [globals], and the
    lookup of an unbound identifier throws. *)
Definition handleDownload (globals : JsObj) (v : View) (file_format : JsValue)
  : Completion View :=
  (* Reset the form html *)
  let f0 := empty (form v) in
  (* Append the form fields. *)
  let f1 := _appendInputFieldToForm f0 (VStr "file_format") file_format in
  match globals !! "reference_genome_uid" with
  | None => Throw (ReferenceError "reference_genome_uid") (set_form v f1)
  | Some reference_genome_uid =>
      let f2 := _appendInputFieldToForm f1 (VStr "reference_genome_uid")
                  reference_genome_uid in
      (* Submit the form. *)
      Normal (set_form v (submit f2))
  end.

Definition componentOptions (v : View) : Options :=
  mkOptions (Some (VStr "/_/single_ref_genome"))
    (Some (VObj {[ "referenceGenomeUid" := model_uid v ]}))
    None None None None.

Section Methods.
Context `{AbstractDataTableComponent}.

(** Draws or redraws the table. *)
Definition redrawDatatable (v : View) : View * list Effect :=
  let destroyed :=
    match datatableComponent v with
    | Some _ => [Destroy]
    | None => []
    end in
  let '(c, t) := initialize (componentOptions v) (hook v) in
  (mkView (model_uid v) (hook v) (form v) (Some c), destroyed ++ t).

Definition render (v : View) : View * list Effect :=
  let '(v1, t) := redrawDatatable v in
  (v1,
   [AddClass "#gd-sidenav-link-refgenomes" "active";
    BindClick "#gd-ref-genome-download-fasta" (VStr "fasta");
    BindClick "#gd-ref-genome-download-genbank" (VStr "genbank")] ++ t).

End Methods.

(** What the claimed form content would be: the two fields, the second
    carrying the uid of the model. *)
Definition expectedFields (v : View) (file_format : JsValue) : list string :=
  [hiddenInput (VStr "file_format") file_format;
   hiddenInput (VStr "reference_genome_uid") (model_uid v)].

End RefGenomeView.

(** ** Regular expressions of the admin page

    The two patterns are anchored at both ends ([^ ... $], no [m] flag)
    and use only literals, character classes, alternation and [?], so
    [regex.test(value)] is membership of the whole of [value] in the
    language of the pattern; it is decided by derivatives. *)

Module Regexp.

Inductive regex : Type :=
  | Void                                   (* matches nothing *)
  | Eps                                    (* the empty string *)
  | Cls (p : ascii -> bool)                (* one character of a class *)
  | Cat (r s : regex)
  | Alt (r s : regex)
  | Opt (r : regex).                       (* r? *)

(** The strings a pattern matches. *)
Inductive matches : regex -> list ascii -> Prop :=
  | MEps : matches Eps []
  | MCls p c : p c = true -> matches (Cls p) [c]
  | MCat r s u w : matches r u -> matches s w -> matches (Cat r s) (u ++ w)
  | MAltL r s u : matches r u -> matches (Alt r s) u
  | MAltR r s u : matches s u -> matches (Alt r s) u
  | MOptNone r : matches (Opt r) []
  | MOptSome r u : matches r u -> matches (Opt r) u.

Fixpoint nullable (r : regex) : bool :=
  match r with
  | Void => false
  | Eps => true
  | Cls _ => false
  | Cat r s => nullable r && nullable s
  | Alt r s => nullable r || nullable s
  | Opt _ => true
  end.

Fixpoint deriv (c : ascii) (r : regex) : regex :=
  match r with
  | Void | Eps => Void
  | Cls p => if p c then Eps else Void
  | Cat r s =>
      if nullable r then Alt (Cat (deriv c r) s) (deriv c s)
      else Cat (deriv c r) s
  | Alt r s => Alt (deriv c r) (deriv c s)
  | Opt r => deriv c r
  end.

Fixpoint matchList (r : regex) (w : list ascii) : bool :=
  match w with
  | [] => nullable r
  | c :: w' => matchList (deriv c r) w'
  end.

(** [pattern.test(value)] for a pattern written [/^r$/]. *)
Definition test (r : regex) (value : string) : bool :=
  matchList r (String.list_ascii_of_string value).

(** Canonicalisation under the [i] flag: ASCII letters compare by
    their upper-case form. *)
Definition canonical (c : ascii) : nat :=
  let n := nat_of_ascii c in
  if (97 <=? n)%nat && (n <=? 122)%nat then (n - 32)%nat else n.

(** A literal character of a pattern carrying the [i] flag. *)
Definition chr (c : ascii) : regex :=
  Cls (fun x => (canonical x =? canonical c)%nat).

(** [[lo-hi]] *)
Definition range (lo hi : ascii) : regex :=
  Cls (fun x => (canonical lo <=? canonical x)%nat
                && (canonical x <=? canonical hi)%nat).

(** A run of literal characters. *)
Fixpoint lit (s : string) : regex :=
  match s with
  | EmptyString => Eps
  | String c EmptyString => chr c
  | String c s' => Cat (chr c) (lit s')
  end.

(** [\d] *)
Definition digit : regex := range "0"%char "9"%char.

(** Concatenation of a list of patterns. *)
Fixpoint seq (rs : list regex) : regex :=
  match rs with
  | [] => Eps
  | [r] => r
  | r :: rs' => Cat r (seq rs')
  end.

End Regexp.

(** ** CeleryManager.HomeView (the CoffeeScript admin page) *)

Module HomeView.
Import Regexp.

(** [(25[0-5]|2[0-4]\d|[01]?\d\d?)]; the EC2 pattern spells the digit
    class [[0-9]], which is the same class. *)
Definition octet : regex :=
  Alt (seq [lit "25"; range "0"%char "5"%char])
    (Alt (seq [lit "2"; range "0"%char "4"%char; digit])
       (seq [Opt (Alt (chr "0"%char) (chr "1"%char)); digit; Opt digit])).

(** [/^octet\.octet\.octet\.octet$/i] *)
Definition ipv4regex : regex :=
  seq [octet; lit "."; octet; lit "."; octet; lit "."; octet].

(** [/^ec2-octet-octet-octet-octet\.compute-1\.amazonaws\.com$/i] *)
Definition ec2regex : regex :=
  seq [lit "ec2-"; octet; lit "-"; octet; lit "-"; octet; lit "-"; octet;
       lit ".compute-1.amazonaws.com"].

(** The validation method registered as [domainOrIpv4];
    [optional] is the answer of jquery.validate's
    [this.optional(element)]. *)
Definition domainOrIpv4 (optional : bool) (value : string) : bool :=
  optional || test ec2regex value || test ipv4regex value.

(** The [fieldset] around the clicked button: its test URL, its
    serialised fields, and the class lists of the [.panel] elements
    among its ancestors. *)
Record Fieldset : Type := mkFieldset {
  testUrl : JsValue;                       (* fieldset.data("test-url") *)
  serialized : string;                     (* fieldset.serialize() *)
  panels : list (list string)              (* fieldset.parents(".panel") *)
}.

(** jQuery's [removeClass] and [addClass] on one element. *)
Definition removeClass (cls : string) (classes : list string) : list string :=
  filter (fun c => c ≠ cls) classes.

Definition addClass (cls : string) (classes : list string) : list string :=
  if decide (cls ∈ classes) then classes else classes ++ [cls].

Definition success (fs : Fieldset) (message : JsValue)
  : Fieldset * list Effect :=
  (mkFieldset (testUrl fs) (serialized fs)
     (map (fun p => addClass "panel-success" (removeClass "panel-danger" p))
        (panels fs)),
   [Alert message]).

Definition error (fs : Fieldset) (message : JsValue)
  : Fieldset * list Effect :=
  (mkFieldset (testUrl fs) (serialized fs)
     (map (fun p => addClass "panel-danger" (removeClass "panel-success" p))
        (panels fs)),
   [Alert message]).

(** The [success] callback of the request [test] sends; [data] is the
    JSON object of the response. *)
Definition onTestResponse (fs : Fieldset) (data : JsObj)
  : Fieldset * list Effect :=
  if strict_eq_str (prop data "status") "error"
  then error fs (prop data "message")
  else success fs (VStr "Passed test!").

(** [test]: what happens until the request is on its way. *)
Definition test (fs : Fieldset) : Fieldset * list Effect :=
  (fs, [Block; Post (testUrl fs) (serialized fs)]).

(** A whole exchange: the click, the response, the [complete] hook. *)
Definition testExchange (fs : Fieldset) (data : JsObj)
  : Fieldset * list Effect :=
  let '(fs1, t1) := test fs in
  let '(fs2, t2) := onTestResponse fs1 data in
  (fs2, t1 ++ t2 ++ [Unblock]).

Definition alerts (t : list Effect) : list JsValue :=
  omap (fun e => match e with Alert m => Some m | _ => None end) t.

End HomeView.

(** ** Sample inputs

    Concrete pages, options and responses at which the statements below
    are evaluated. *)

Module Samples.

(** A base class whose formatting hooks leave the data as it is and
    whose widget parameters switch paging on. *)
Definition plainBase : AbstractDataTableComponent := {|
  makeDisplayableObjectList := fun objs => objs;
  makeDisplayableFieldConfig := fun cfg => cfg;
  getDataTableParams := fun _ => {[ "bPaginate" := VBool true ]}
|}.

Definition hookElement : Element :=
  mkElement (Some "gd-datatable-hook") EmptyString.

Definition rowsA : JsValue :=
  VArr [VObj {[ "label" := VStr "sample-a" ]}; VObj {[ "label" := VStr "sample-b" ]}].

Definition rowsB : JsValue :=
  VArr [VObj {[ "label" := VStr "sample-c" ]}].

Definition columns : JsValue :=
  VArr [VObj {[ "mData" := VStr "label"; "sTitle" := VStr "Label" ]}].

(** Direct data, nothing else. *)
Definition directOptions : Options :=
  mkOptions None None None (Some rowsA) (Some columns) None.

(** Direct data together with a controls template. *)
Definition directOptionsWithControls : Options :=
  mkOptions None (Some (VObj {[ "projectUid" := VStr "p1" ]}))
    (Some (VStr "/_/templates/sample_list_controls"))
    (Some rowsA) (Some columns) None.

(** A server target, as the list views pass it. *)
Definition serverOptions : Options :=
  mkOptions (Some (VStr "/_/samples"))
    (Some (VObj {[ "projectUid" := VStr "p1" ]}))
    (Some (VStr "/_/templates/sample_list_controls"))
    None None None.

(** Direct data with extra widget parameters that carry rows of their
    own. *)
Definition pinnedOptions : Options :=
  mkOptions None None None (Some rowsA) (Some columns)
    (Some {[ "aaData" := rowsA ]}).

(** Extra widget parameters that carry both rows and columns. *)
Definition overridingOptions : Options :=
  mkOptions None None None (Some rowsA) (Some columns)
    (Some {[ "aaData" := rowsB; "aoColumns" := VArr [] ]}).

(** Components as their constructor leaves them. *)
Definition renderedComponent : Component :=
  fst (@initialize plainBase directOptions hookElement).

Definition pinnedComponent : Component :=
  fst (@initialize plainBase pinnedOptions hookElement).

Definition overridingComponent : Component :=
  fst (@initialize plainBase overridingOptions hookElement).

Definition listView : RefGenomeListView.View :=
  RefGenomeListView.mkView (VStr "p1") VUndefined
    (mkElement (Some "gd-ref-genome-list-view-datatable-hook") EmptyString)
    None false.

Definition genomeView : RefGenomeView.View :=
  RefGenomeView.mkView (VStr "rg-1")
    (mkElement (Some "gd-ref-genome-view-datatable-hook") EmptyString)
    (RefGenomeView.mkForm ["<input name=stale>"] [])
    None.

(** A global scope in which some script has bound the identifier to the
    uid of another genome. *)
Definition otherGlobals : JsObj :=
  {[ "reference_genome_uid" := VStr "rg-2" ]}.

Definition panelFieldset : HomeView.Fieldset :=
  HomeView.mkFieldset (VStr "/test/ssh") "host=10.0.0.1&user=ubuntu"
    [["panel"; "panel-default"; "panel-success"]].

Definition errorResponse : JsObj :=
  {[ "status" := VStr "error"; "message" := VStr "bad host" ]}.

Definition okResponse : JsObj :=
  {[ "status" := VStr "ok"; "message" := VStr "connected" ]}.

End Samples.

(** ** gd.SampleListView (sample_list_view.js) *)

Module SampleListView.

Record View : Type := mkView {
  model_uid : JsValue;                     (* this.model.get('uid') *)
  hook : Element;                          (* #gd-sample-list-view-datatable-hook *)
  datatableComponent : option Component;
  samplesControlComponent : bool           (* has decorateControls created it *)
}.

Definition componentOptions (v : View) : Options :=
  mkOptions (Some (VStr "/_/samples"))
    (Some (VObj {[ "projectUid" := model_uid v ]}))
    (Some (VStr "/_/templates/sample_list_controls"))
    None None None.

Section Methods.
Context `{AbstractDataTableComponent}.

Definition render (v : View) : View * list Effect :=
  let '(c, t) := initialize (componentOptions v) (hook v) in
  (mkView (model_uid v) (hook v) (Some c) (samplesControlComponent v),
   AddClass "#gd-sidenav-link-samples" "active" ::
   t ++ [ListenTo "DONE_CONTROLS_REDRAW"]).

Definition decorateControls (v : View) : View * list Effect :=
  (mkView (model_uid v) (hook v) (datatableComponent v) true, []).

End Methods.

End SampleListView.

(** ** The gd.RefGenomeListView that sample_list_view.js carries

    The third definition of sample_list_view.js: a Reference-Genome list
    view without the show_de_novo flag and without redrawDatatable. *)

Module PlainRefGenomeListView.

Record View : Type := mkView {
  model_uid : JsValue;
  hook : Element;                          (* #gd-ref-genome-list-view-datatable-hook *)
  datatableComponent : option Component;
  refGenomeControlsComponent : bool
}.

Definition componentOptions (v : View) : Options :=
  mkOptions (Some (VStr "/_/ref_genomes"))
    (Some (VObj {[ "projectUid" := model_uid v ]}))
    (Some (VStr "/_/templates/reference_genome_list_controls"))
    None None None.

Section Methods.
Context `{AbstractDataTableComponent}.

Definition render (v : View) : View * list Effect :=
  let '(c, t) := initialize (componentOptions v) (hook v) in
  (mkView (model_uid v) (hook v) (Some c) (refGenomeControlsComponent v),
   AddClass "#gd-sidenav-link-refgenomes" "active" ::
   t ++ [ListenTo "DONE_CONTROLS_REDRAW"]).

Definition decorateControls (v : View) : View * list Effect :=
  (mkView (model_uid v) (hook v) (datatableComponent v) true, []).

End Methods.

End PlainRefGenomeListView.

(** ** Signal sequences of gd.RefGenomeListView (ref_genome_list_view.js) *)

Module RefGenomeListViewRuns.
Import RefGenomeListView.

Section Runs.
Context `{AbstractDataTableComponent}.

(** The view handles the signals one after the other; the effects add
    up in order. *)
Fixpoint handleAll (v : View) (signals : list Signal) : View * list Effect :=
  match signals with
  | [] => (v, [])
  | s :: rest =>
      let '(v1, t1) := handle v s in
      let '(v2, t2) := handleAll v1 rest in
      (v2, t1 ++ t2)
  end.

End Runs.

Definition destroys (t : list Effect) : nat :=
  length (List.filter (fun e => match e with Destroy => true | _ => false end) t).

Definition isToggle (s : Signal) : bool :=
  match s with TOGGLE_DE_NOVO => true | _ => false end.

End RefGenomeListViewRuns.

(** ** CeleryManager.Router (the CoffeeScript admin page) *)

Module Router.

(** [s.split(sep)] for a separator of one character. *)
Fixpoint split (sep : ascii) (s : string) : list string :=
  match s with
  | EmptyString => [EmptyString]
  | String c rest =>
      if Ascii.eqb c sep then EmptyString :: split sep rest
      else match split sep rest with
           | first :: others => String c first :: others
           | [] => [String c EmptyString]
           end
  end.

(** [array[0]] *)
Definition first (parts : list string) : JsValue :=
  match parts with
  | p :: _ => VStr p
  | [] => VUndefined
  end.

(** [CeleryManager.config.urlRoot = window.location.href.split("?")[0]] *)
Definition urlRoot (href : string) : JsValue :=
  first (split "?"%char href).

(** The [.form-group] that [$(element).closest('.form-group')] finds, as
    its class list; [None] when the element has no such ancestor. *)
Definition highlight (formGroup : option (list string)) : option (list string) :=
  HomeView.addClass "has-error" <$> formGroup.

Definition success (formGroup : option (list string)) : option (list string) :=
  HomeView.removeClass "has-error" <$> formGroup.

End Router.

(** ** Vocabulary for the host names the validator accepts *)

Module Hosts.
Import Regexp.

Definition isDigit (c : ascii) : bool :=
  (48 <=? nat_of_ascii c)%nat && (nat_of_ascii c <=? 57)%nat.

Definition digitValue (c : ascii) : nat := (nat_of_ascii c - 48)%nat.

(** One to three decimal digits whose value is at most 255. *)
Definition isOctet (w : list ascii) : bool :=
  match w with
  | [a] => isDigit a
  | [a; b] => isDigit a && isDigit b
  | [a; b; c] =>
      isDigit a && isDigit b && isDigit c &&
      (100 * digitValue a + 10 * digitValue b + digitValue c <=? 255)%nat
  | _ => false
  end.

(** Equal up to the case of ASCII letters. *)
Definition sameCase (u w : list ascii) : Prop :=
  map canonical u = map canonical w.

Definition chars (s : string) : list ascii := String.list_ascii_of_string s.

(** Four octets separated by dots. *)
Definition dottedQuad (w : list ascii) : Prop :=
  exists a b c d : list ascii,
    w = a ++ "."%char :: b ++ "."%char :: c ++ "."%char :: d /\
    isOctet a = true /\ isOctet b = true /\
    isOctet c = true /\ isOctet d = true.

(** [ec2-], four octets separated by hyphens, and the domain of the
    first EC2 region, the letters in either case. *)
Definition ec2Host (w : list ascii) : Prop :=
  exists p a b c d q : list ascii,
    w = p ++ a ++ "-"%char :: b ++ "-"%char :: c ++ "-"%char :: d ++ q /\
    sameCase p (chars "ec2-") /\
    sameCase q (chars ".compute-1.amazonaws.com") /\
    isOctet a = true /\ isOctet b = true /\
    isOctet c = true /\ isOctet d = true.

Definition allAscii : list ascii := map ascii_of_nat (List.seq 0 256).

(** A pattern whose shape alone shows that it matches nothing. *)
Fixpoint emptyLang (r : regex) : bool :=
  match r with
  | Void => true
  | Eps | Cls _ | Opt _ => false
  | Cat r s => emptyLang r || emptyLang s
  | Alt r s => emptyLang r && emptyLang s
  end.

(** A pattern whose shape alone shows that it matches at most the
    empty string. *)
Fixpoint onlyEps (r : regex) : bool :=
  match r with
  | Void | Eps => true
  | Cls _ => false
  | Cat r s => emptyLang r || emptyLang s || (onlyEps r && onlyEps s)
  | Alt r s => onlyEps r && onlyEps s
  | Opt r => onlyEps r
  end.

(** Patterns whose classes do not tell the two cases of a letter apart. *)
Fixpoint caseBlind (r : regex) : Prop :=
  match r with
  | Void | Eps => True
  | Cls p => forall x y, canonical x = canonical y -> p x = p y
  | Cat r s | Alt r s => caseBlind r /\ caseBlind s
  | Opt r => caseBlind r
  end.

(** The octet pattern against [isOctet], character by character: after
    each digit the pattern accepts exactly when [isOctet] does, what is
    left after a character that is no digit matches nothing, and what
    is left after three digits matches at most the empty string. *)
Definition octetTable : bool :=
  forallb (fun a =>
    if isDigit a then
      Bool.eqb (nullable (deriv a HomeView.octet)) (isOctet [a]) &&
      forallb (fun b =>
        if isDigit b then
          Bool.eqb (nullable (deriv b (deriv a HomeView.octet))) (isOctet [a; b]) &&
          forallb (fun c =>
            if isDigit c then
              Bool.eqb (nullable (deriv c (deriv b (deriv a HomeView.octet))))
                (isOctet [a; b; c]) &&
              onlyEps (deriv c (deriv b (deriv a HomeView.octet)))
            else emptyLang (deriv c (deriv b (deriv a HomeView.octet))))
            allAscii
        else emptyLang (deriv b (deriv a HomeView.octet)))
        allAscii
    else emptyLang (deriv a HomeView.octet))
    allAscii.

End Hosts.

(** ** Values that can stand in an attribute as they are *)

Module Markup.

(** Letters, digits, hyphen, underscore and dot. *)
Definition plainChar (c : ascii) : bool :=
  let n := nat_of_ascii c in
  ((48 <=? n) && (n <=? 57) || (65 <=? n) && (n <=? 90)
   || (97 <=? n) && (n <=? 122)
   || (n =? 45) || (n =? 95) || (n =? 46))%nat.

(** A value whose text, as the template prints it, is made of such
    characters only; in particular it holds no double quote, so the
    markup around it is one input element. *)
Definition plainValue (v : JsValue) : bool :=
  forallb plainChar (String.list_ascii_of_string (RefGenomeView.interpolate v)).

End Markup.

(** ** More sample inputs *)

Module MoreSamples.

Definition sampleListView : SampleListView.View :=
  SampleListView.mkView (VStr "p1")
    (mkElement (Some "gd-sample-list-view-datatable-hook") EmptyString)
    None false.

Definition serverResponse : JsObj :=
  {[ "obj_list" := Samples.rowsB; "field_config" := Samples.columns ]}.

(** A server target together with directly passed lists. *)
Definition mixedOptions : Options :=
  mkOptions (Some (VStr "/_/samples")) None None
    (Some Samples.rowsA) (Some (VArr [])) None.

Definition boundGlobals : JsObj :=
  {[ "reference_genome_uid" := VStr "rg-1" ]}.

(** A component that waits for its response. *)
Definition pendingComponent : Component :=
  fst (@initialize Samples.plainBase Samples.serverOptions Samples.hookElement).

(** Components on hooks with other ids, and on a hook without one. *)
Definition componentOn (id : option string) : Component :=
  mkComponent Samples.directOptions (mkElement id EmptyString) None None
    Samples.rowsA Samples.columns.

(** The list view after [render], and after its controls were
    decorated. *)
Definition renderedListView : RefGenomeListView.View :=
  fst (@RefGenomeListView.render Samples.plainBase Samples.listView).

Definition decoratedListView : RefGenomeListView.View :=
  fst (RefGenomeListView.decorateControls renderedListView).

End MoreSamples.

(** * Properties *)

(** ** Dictionaries *)

Section ExtendFacts.

Lemma lookup_extend (dst src : JsObj) (k : string) :
  extend dst src !! k =
    match src !! k with
    | Some v => Some v
    | None => dst !! k
    end.
Proof.
  unfold extend. rewrite lookup_union.
  destruct (src !! k), (dst !! k); reflexivity.
Qed.

Lemma lookup_extend_Some (dst src : JsObj) (k : string) (v : JsValue) :
  src !! k = Some v -> extend dst src !! k = Some v.
Proof. intros Hk. by rewrite lookup_extend, Hk. Qed.

Lemma lookup_extend_None (dst src : JsObj) (k : string) :
  src !! k = None -> extend dst src !! k = dst !! k.
Proof. intros Hk. by rewrite lookup_extend, Hk. Qed.

Lemma prop_is_string (o : JsObj) (k s : string) :
  strict_eq_str (prop o k) s = true <-> o !! k = Some (VStr s).
Proof.
  unfold prop. destruct (o !! k) as [v|] eqn:Hk; simpl.
  - destruct v; simpl; try (split; [discriminate | intros [=]]).
    rewrite String.eqb_eq. split; [by intros -> | by intros [= ->]].
  - split; discriminate.
Qed.

Lemma prop_not_string (o : JsObj) (k s : string) :
  strict_eq_str (prop o k) s = false <-> o !! k ≠ Some (VStr s).
Proof.
  rewrite <- prop_is_string.
  destruct (strict_eq_str (prop o k) s); split; congruence.
Qed.

End ExtendFacts.

(** ** The derivative matcher decides [matches] *)

Section RegexpFacts.
Import Regexp.

Lemma nullable_matches (r : regex) : nullable r = true <-> matches r [].
Proof.
  induction r as [| |p|r IHr s IHs|r IHr s IHs|r IHr]; simpl.
  - split; [discriminate | inversion 1].
  - split; [constructor | reflexivity].
  - split; [discriminate | inversion 1].
  - rewrite andb_true_iff, IHr, IHs. split.
    + intros [Hr Hs]. apply (MCat r s [] [] Hr Hs).
    + intros Hm. inversion Hm as [| |r' s' u w Hu Hw [Hr Hs] Huw| | | |].
      apply app_eq_nil in Huw as [-> ->]. by split.
  - rewrite orb_true_iff, IHr, IHs. split.
    + intros [Hr|Hs]; [by apply MAltL | by apply MAltR].
    + inversion 1; subst; [by left | by right].
  - split; [constructor | reflexivity].
Qed.

Lemma deriv_matches (r : regex) (c : ascii) (w : list ascii) :
  matches (deriv c r) w <-> matches r (c :: w).
Proof.
  revert w.
  induction r as [| |p|r IHr s IHs|r IHr s IHs|r IHr]; intros w; simpl.
  - split; inversion 1.
  - split; inversion 1.
  - destruct (p c) eqn:Hp.
    + split.
      * inversion 1; subst. by constructor.
      * inversion 1; subst. constructor.
    + split; [inversion 1 | inversion 1; congruence].
  - destruct (nullable r) eqn:Hn.
    + split.
      * inversion 1 as [| | |r' s' u Hm| r' s' u Hm | |]; subst.
        -- inversion Hm as [| |r' s' u v Hu Hv| | | |]; subst.
           apply (MCat r s (c :: u) v); [by apply IHr | done].
        -- apply (MCat r s [] (c :: w)); [by apply nullable_matches | by apply IHs].
      * inversion 1 as [| |r' s' u v Hu Hv [Hr Hs] Huv| | | |].
        destruct u as [|a u]; simpl in Huv.
        -- subst v. apply MAltR. by apply IHs.
        -- injection Huv as -> <-. apply MAltL.
           apply MCat; [by apply IHr | done].
    + split.
      * inversion 1 as [| |r' s' u v Hu Hv| | | |]; subst.
        apply (MCat r s (c :: u) v); [by apply IHr | done].
      * inversion 1 as [| |r' s' u v Hu Hv [Hr Hs] Huv| | | |].
        destruct u as [|a u]; simpl in Huv.
        -- apply nullable_matches in Hu. congruence.
        -- injection Huv as -> <-. apply MCat; [by apply IHr | done].
  - split.
    + inversion 1; subst; [apply MAltL | apply MAltR]; by (apply IHr || apply IHs).
    + inversion 1; subst; [apply MAltL | apply MAltR]; by (apply IHr || apply IHs).
  - split.
    + intros Hm. apply MOptSome. by apply IHr.
    + inversion 1; subst. by apply IHr.
Qed.

Lemma matchList_matches (r : regex) (w : list ascii) :
  matchList r w = true <-> matches r w.
Proof.
  revert r. induction w as [|c w IH]; intros r; simpl.
  - apply nullable_matches.
  - rewrite IH. apply deriv_matches.
Qed.

End RegexpFacts.

(** ** gd.DataTableComponent *)

Section DataTableComponentFacts.
Context `{AbstractDataTableComponent}.

Lemma requests_app (t u : list Effect) :
  requests (t ++ u) = requests t ++ requests u.
Proof. apply List.filter_app. Qed.

(** The widget [updateDatatable] creates, and what it holds under each
    key: the caller's extra parameters first, then the data, then the
    parameters of the base class. *)
Lemma updateDatatable_widget (c : Component) (objs cfg : JsValue) :
  exists (w : Widget) (base : JsObj),
    datatable (fst (updateDatatable c objs cfg)) = Some w /\
    w_selector w = "#" +:+ attrIdPlus (el c) "-datatable" /\
    forall k : string,
      w_params w !! k =
        match extraDatatableParams (options c) ≫= (fun extra => extra !! k) with
        | Some v => Some v
        | None =>
            if decide (k = "aaData") then Some objs
            else if decide (k = "aoColumns") then Some cfg
            else base !! k
        end.
Proof.
  unfold updateDatatable; simpl.
  eexists _, _. split; [reflexivity|]. split; [reflexivity|].
  intros k; simpl.
  assert (Hdata : forall base : JsObj,
    extend base {[ "aaData" := objs; "aoColumns" := cfg ]} !! k =
      if decide (k = "aaData") then Some objs
      else if decide (k = "aoColumns") then Some cfg
      else base !! k).
  { intros base. rewrite lookup_extend.
    destruct (decide (k = "aaData")) as [->|Hrows].
    - by rewrite lookup_insert_eq.
    - rewrite lookup_insert_ne by done.
      destruct (decide (k = "aoColumns")) as [->|Hcols].
      + by rewrite lookup_singleton_eq.
      + by rewrite lookup_singleton_ne. }
  destruct (extraDatatableParams (options c)) as [extra|]; simpl.
  - rewrite lookup_extend. destruct (extra !! k); [reflexivity|]. apply Hdata.
  - apply Hdata.
Qed.

Lemma updateDatatable_trace (c : Component) (objs cfg : JsValue) :
  exists w : Widget,
    datatable (fst (updateDatatable c objs cfg)) = Some w /\
    snd (updateDatatable c objs cfg) =
      match datatable c with
      | Some old => [FnClearTable old]
      | None => []
      end ++
      [SetHtml (tableMarkup (attrIdPlus (el c) "-datatable"));
       DataTableInit w; CreateMasterCheckbox; ListenToCheckboxes].
Proof. unfold updateDatatable; simpl. by eexists. Qed.

Lemma updateDatatable_no_request (c : Component) (objs cfg : JsValue) :
  requests (snd (updateDatatable c objs cfg)) = [].
Proof.
  destruct (updateDatatable_trace c objs cfg) as (w & _ & ->).
  rewrite requests_app. by destruct (datatable c).
Qed.

Lemma updateDatatable_keeps (c : Component) (objs cfg : JsValue) :
  options (fst (updateDatatable c objs cfg)) = options c /\
  displayableObjList (fst (updateDatatable c objs cfg)) = displayableObjList c /\
  displayableFieldConfig (fst (updateDatatable c objs cfg)) =
    displayableFieldConfig c.
Proof. by unfold updateDatatable. Qed.

Lemma render_component (c : Component) :
  fst (render c) =
    fst (updateDatatable c (displayableObjList c) (displayableFieldConfig c)).
Proof. unfold render. by destruct (updateDatatable _ _ _). Qed.

Lemma render_trace (c : Component) :
  snd (render c) =
    snd (updateDatatable c (displayableObjList c) (displayableFieldConfig c)) ++
    match controlsTemplate (options c) with
    | Some template =>
        addControlsFromTemplate template (orUndefined (requestData (options c)))
    | None => []
    end ++ [LengthSelectpicker].
Proof.
  unfold render.
  pose proof (updateDatatable_keeps c (displayableObjList c)
                (displayableFieldConfig c)) as (Ho & _ & _).
  destruct (updateDatatable _ _ _) as [c1 t1]; simpl in *. by rewrite Ho.
Qed.

Lemma render_requests (c : Component) :
  requests (snd (render c)) =
    match controlsTemplate (options c) with
    | Some template =>
        [ControlsGet template (orUndefined (requestData (options c)))]
    | None => []
    end.
Proof.
  rewrite render_trace, !requests_app, updateDatatable_no_request.
  by destruct (controlsTemplate (options c)).
Qed.

(** Lookup in the parameter set as [updateDatatable] merges it. *)
Lemma lookup_merged (base : JsObj) (objs cfg : JsValue)
    (extras : option JsObj) (k : string) :
  extend (extend base {[ "aaData" := objs; "aoColumns" := cfg ]})
    (default ∅ extras) !! k =
    match extras ≫= (fun extra => extra !! k) with
    | Some v => Some v
    | None =>
        if decide (k = "aaData") then Some objs
        else if decide (k = "aoColumns") then Some cfg
        else base !! k
    end.
Proof.
  assert (Hdata :
    extend base {[ "aaData" := objs; "aoColumns" := cfg ]} !! k =
      if decide (k = "aaData") then Some objs
      else if decide (k = "aoColumns") then Some cfg
      else base !! k).
  { rewrite lookup_extend.
    destruct (decide (k = "aaData")) as [->|Hrows].
    - by rewrite lookup_insert_eq.
    - rewrite lookup_insert_ne by done.
      destruct (decide (k = "aoColumns")) as [->|Hcols].
      + by rewrite lookup_singleton_eq.
      + by rewrite lookup_singleton_ne. }
  rewrite lookup_extend. destruct extras as [extra|]; simpl.
  - by destruct (extra !! k).
  - by rewrite lookup_empty.
Qed.

(** The parameter set of the new widget: the parameters of the base
    class, asked for once the table element is written, extended by the
    data and then by the caller's extra parameters. *)
Lemma updateDatatable_merge (c : Component) (objs cfg : JsValue) :
  exists w : Widget,
    datatable (fst (updateDatatable c objs cfg)) = Some w /\
    DataTableInit w ∈ snd (updateDatatable c objs cfg) /\
    w_params w =
      extend
        (extend
           (getDataTableParams
              (mkComponent (options c)
                 (mkElement (el_id (el c))
                    (tableMarkup (attrIdPlus (el c) "-datatable")))
                 (datatable c) (Some (attrIdPlus (el c) "-datatable"))
                 (displayableObjList c) (displayableFieldConfig c)))
           {[ "aaData" := objs; "aoColumns" := cfg ]})
        (default ∅ (extraDatatableParams (options c))).
Proof.
  unfold updateDatatable; simpl. eexists. split; [reflexivity|]. split.
  - apply elem_of_app. right. apply list_elem_of_further, list_elem_of_here.
  - simpl. destruct (extraDatatableParams (options c)); simpl; [done|].
    unfold extend. by rewrite (left_id_L ∅ (∪)).
Qed.

(** When the response arrives the component normalises what the server
    sent, renders, and requests nothing but the controls fragment. *)
Lemma onServerResponse_renders (c : Component) (response : JsObj) :
  displayableObjList (fst (onServerResponse c response)) =
    makeDisplayableObjectList (prop response "obj_list") /\
  displayableFieldConfig (fst (onServerResponse c response)) =
    makeDisplayableFieldConfig (prop response "field_config") /\
  is_Some (datatable (fst (onServerResponse c response))) /\
  requests (snd (onServerResponse c response)) =
    match controlsTemplate (options c) with
    | Some template =>
        [ControlsGet template (orUndefined (requestData (options c)))]
    | None => []
    end.
Proof.
  unfold onServerResponse. set (c2 := set_displayable _ _ _).
  rewrite render_component, render_requests.
  destruct (updateDatatable_keeps c2 (displayableObjList c2)
              (displayableFieldConfig c2)) as (_ & -> & ->).
  destruct (updateDatatable_widget c2 (displayableObjList c2)
              (displayableFieldConfig c2)) as (w & _ & -> & _).
  repeat split; eauto.
Qed.

End DataTableComponentFacts.

Section DataTableComponentClaims.
Context `{AbstractDataTableComponent}.

(** C2 (amended): for every object list and field configuration,
    [updateDatatable] first clears the existing widget when there is
    one, and then, whether or not there was one, replaces the content of
    the hook element by a fresh table element whose id is the id of the
    hook followed by "-datatable", instantiates the widget once on that
    table, and wires the master checkbox and the row checkboxes. The
    widget is instantiated with the parameters of the base class
    extended first by aaData, the object list, and aoColumns, the field
    configuration, and then by the caller's extra parameters: under each
    key it holds the caller's extra parameter when there is one,
    otherwise the object list under aaData, the field configuration
    under aoColumns, and the base parameter elsewhere. *)
Theorem updateDatatable_redraws (c : Component) (objs cfg : JsValue) :
  let id := attrIdPlus (el c) "-datatable" in
  let r := updateDatatable c objs cfg in
  let base :=
    getDataTableParams
      (mkComponent (options c) (mkElement (el_id (el c)) (tableMarkup id))
         (datatable c) (Some id)
         (displayableObjList c) (displayableFieldConfig c)) in
  exists w : Widget,
    snd r =
      match datatable c with
      | Some old => [FnClearTable old]
      | None => []
      end ++
      [SetHtml (tableMarkup id); DataTableInit w;
       CreateMasterCheckbox; ListenToCheckboxes] /\
    datatableId (fst r) = Some id /\
    datatable (fst r) = Some w /\
    w_selector w = "#" +:+ id /\
    w_params w =
      extend (extend base {[ "aaData" := objs; "aoColumns" := cfg ]})
        (default ∅ (extraDatatableParams (options c))) /\
    forall k : string,
      w_params w !! k =
        match extraDatatableParams (options c) ≫= (fun extra => extra !! k) with
        | Some v => Some v
        | None =>
            if decide (k = "aaData") then Some objs
            else if decide (k = "aoColumns") then Some cfg
            else base !! k
        end.
Proof.
  intros id r base.
  destruct (updateDatatable_widget c objs cfg) as (w & _ & Hw & Hsel & _).
  destruct (updateDatatable_trace c objs cfg) as (w' & Hw' & Htrace).
  destruct (updateDatatable_merge c objs cfg) as (w'' & Hw'' & _ & Hmerge).
  assert (w' = w) as -> by congruence.
  assert (w'' = w) as -> by congruence.
  exists w. subst r id base.
  split; [exact Htrace|]. split; [reflexivity|]. split; [exact Hw|].
  split; [exact Hsel|]. split; [exact Hmerge|].
  intros k. rewrite Hmerge. apply lookup_merged.
Qed.

(** C10: [updateDatatable] hands the widget the parameters of the base
    class extended by aaData, the object list, and aoColumns, the field
    configuration, and only then by the caller's extra parameters. So
    an aaData or aoColumns entry of extraDatatableParams replaces the
    object list, respectively the column configuration, that
    [updateDatatable] was called with, while without such an entry the
    widget shows the object list, respectively the column
    configuration, itself. *)
Theorem extraDatatableParams_override
    (c : Component) (objs cfg : JsValue) (extra : JsObj) (rows cols : JsValue) :
  extraDatatableParams (options c) = Some extra ->
  let r := updateDatatable c objs cfg in
  let base :=
    getDataTableParams
      (mkComponent (options c)
         (mkElement (el_id (el c))
            (tableMarkup (attrIdPlus (el c) "-datatable")))
         (datatable c) (Some (attrIdPlus (el c) "-datatable"))
         (displayableObjList c) (displayableFieldConfig c)) in
  (exists w : Widget,
     datatable (fst r) = Some w /\
     DataTableInit w ∈ snd r /\
     w_params w =
       extend (extend base {[ "aaData" := objs; "aoColumns" := cfg ]}) extra) /\
  (extra !! "aaData" = Some rows -> displayedRows (fst r) = Some rows) /\
  (extra !! "aoColumns" = Some cols -> displayedColumns (fst r) = Some cols) /\
  (extra !! "aaData" = None -> displayedRows (fst r) = Some objs) /\
  (extra !! "aoColumns" = None -> displayedColumns (fst r) = Some cfg).
Proof.
  intros Hextra r base. subst r base.
  destruct (updateDatatable_merge c objs cfg) as (w & Hw & Hinit & Hmerge).
  rewrite Hextra in Hmerge. simpl in Hmerge.
  split; [by exists w|].
  unfold displayedRows, displayedColumns. rewrite Hw; simpl. rewrite Hmerge.
  pose proof (fun k => lookup_merged
    (getDataTableParams
       (mkComponent (options c)
          (mkElement (el_id (el c))
             (tableMarkup (attrIdPlus (el c) "-datatable")))
          (datatable c) (Some (attrIdPlus (el c) "-datatable"))
          (displayableObjList c) (displayableFieldConfig c)))
    objs cfg (Some extra) k) as Hlook. simpl in Hlook.
  repeat split; intros Hk; rewrite Hlook, Hk; reflexivity.
Qed.


(** C6 (amended): without a serverTarget option the constructor
    normalises the object list and the field configuration and renders
    before it returns, issuing no request for data; the only request it
    can issue is the one for the controls fragment, when a
    controlsTemplate option is present. With a serverTarget option the
    constructor issues exactly one GET, to the server target with
    requestData as parameters, and does not render before the response
    arrives. *)
Theorem initialize_requests (o : Options) (hook : Element) :
  let r := initialize o hook in
  (serverTarget o = None ->
   r = render (mkComponent o hook None None
                 (makeDisplayableObjectList (orUndefined (objList o)))
                 (makeDisplayableFieldConfig (orUndefined (fieldConfig o)))) /\
   displayableObjList (fst r) =
     makeDisplayableObjectList (orUndefined (objList o)) /\
   displayableFieldConfig (fst r) =
     makeDisplayableFieldConfig (orUndefined (fieldConfig o)) /\
   is_Some (datatable (fst r)) /\
   requests (snd r) =
     match controlsTemplate o with
     | Some template => [ControlsGet template (orUndefined (requestData o))]
     | None => []
     end) /\
  (forall url : JsValue, serverTarget o = Some url ->
   snd r = [Get url (orUndefined (requestData o))] /\
   datatable (fst r) = None).
Proof.
  intros r. subst r. unfold initialize. split.
  - intros ->.
    set (c1 := set_displayable _ _ _).
    split; [reflexivity|].
    rewrite render_component, render_requests.
    destruct (updateDatatable_keeps c1 (displayableObjList c1)
                (displayableFieldConfig c1)) as (_ & -> & ->).
    destruct (updateDatatable_widget c1 (displayableObjList c1)
                (displayableFieldConfig c1)) as (w & _ & -> & _).
    repeat split; eauto.
  - intros url Hurl. rewrite Hurl. unfold initializeFromServerTarget; simpl.
    by rewrite Hurl.
Qed.

End DataTableComponentClaims.

Section DataTableComponentInstances.
Import Samples.

(** C2, as stated, fails: for a component that already has a widget the
    claim lets [updateDatatable] only clear it, the fresh table element
    being for the other case; the code writes the fresh table element
    in this case too. *)
Lemma updateDatatable_existing_widget_redrawn :
  ~ (is_Some (datatable renderedComponent) ->
     forall markup : string,
       SetHtml markup ∉
         snd (@updateDatatable plainBase renderedComponent rowsB columns)).
Proof.
  intros Hclaim.
  apply (Hclaim ltac:(vm_compute; eauto)
           (tableMarkup "gd-datatable-hook-datatable")).
  destruct (@updateDatatable_trace plainBase renderedComponent rowsB columns)
    as (w & _ & ->).
  apply elem_of_app. right. apply list_elem_of_here.
Qed.

Lemma extraDatatableParams_override_witness :
  displayedRows
    (fst (@updateDatatable plainBase overridingComponent rowsA columns))
    = Some rowsB /\
  displayedColumns
    (fst (@updateDatatable plainBase overridingComponent rowsA columns))
    = Some (VArr []) /\
  displayedRows
    (fst (@updateDatatable plainBase pinnedComponent rowsB columns))
    = Some rowsA /\
  displayedColumns
    (fst (@updateDatatable plainBase pinnedComponent rowsB columns))
    = Some columns.
Proof.
  destruct (@extraDatatableParams_override plainBase overridingComponent
              rowsA columns {[ "aaData" := rowsB; "aoColumns" := VArr [] ]}
              rowsB (VArr []) eq_refl) as (_ & Hrows & Hcols & _ & _).
  destruct (@extraDatatableParams_override plainBase pinnedComponent
              rowsB columns {[ "aaData" := rowsA ]}
              rowsA columns eq_refl) as (_ & Hpinned & _ & _ & Hfree).
  split; [apply Hrows; reflexivity|].
  split; [apply Hcols; reflexivity|].
  split; [apply Hpinned; reflexivity | apply Hfree; reflexivity].
Defined.



(** C6, as stated, fails: constructed with direct data and a controls
    template, the component requests the controls fragment while it
    renders, so construction without a serverTarget is not free of
    network requests. *)
Lemma initialize_direct_data_requests_controls :
  ~ (requests (snd (@initialize plainBase directOptionsWithControls hookElement))
       = []).
Proof.
  change (@initialize plainBase directOptionsWithControls hookElement)
    with (@render plainBase
            (mkComponent directOptionsWithControls hookElement None None
               rowsA columns)).
  rewrite (@render_requests plainBase). discriminate.
Qed.

Lemma initialize_requests_witness :
  requests (snd (@initialize plainBase directOptions hookElement)) = [] /\
  snd (@initialize plainBase serverOptions hookElement)
    = [Get (VStr "/_/samples") (VObj {[ "projectUid" := VStr "p1" ]})].
Proof.
  split.
  - destruct (@initialize_requests plainBase directOptions hookElement)
      as [Hdirect _].
    destruct (Hdirect eq_refl) as (_ & _ & _ & _ & Hreq). exact Hreq.
  - destruct (@initialize_requests plainBase serverOptions hookElement)
      as [_ Hserver].
    destruct (Hserver (VStr "/_/samples") eq_refl) as [Htrace _]. exact Htrace.
Defined.

End DataTableComponentInstances.

(** ** gd.RefGenomeListView *)

Section RefGenomeListViewFacts.
Import RefGenomeListView.
Context `{AbstractDataTableComponent}.

Lemma truthy_js_not (x : JsValue) : truthy (js_not x) = negb (truthy x).
Proof. reflexivity. Qed.

Lemma redrawDatatable_view (v : View) :
  fst (redrawDatatable v) =
    mkView (model_uid v) (show_de_novo v) (hook v)
      (Some (mkComponent (componentOptions v) (hook v) None None
               VUndefined VUndefined))
      (refGenomeControlsComponent v).
Proof. reflexivity. Qed.

Lemma redrawDatatable_requests (v : View) :
  requests (snd (redrawDatatable v)) =
    [Get (VStr "/_/ref_genomes") (VObj (requestDataOf v))].
Proof. unfold redrawDatatable; simpl. by destruct (datatableComponent v). Qed.

Lemma redrawDatatable_sent (v : View) :
  sentRequestData (fst (redrawDatatable v)) =
    Some (VObj (requestDataOf (fst (redrawDatatable v)))).
Proof. reflexivity. Qed.

Lemma render_redraws (v : View) :
  render v =
    (fst (redrawDatatable
            (mkView (model_uid v) (VBool true) (hook v)
               (datatableComponent v) (refGenomeControlsComponent v))),
     AddClass "#gd-sidenav-link-refgenomes" "active" ::
     snd (redrawDatatable
            (mkView (model_uid v) (VBool true) (hook v)
               (datatableComponent v) (refGenomeControlsComponent v)))).
Proof. unfold render. by destruct (redrawDatatable _). Qed.

Lemma requestDataOf_flag (v w : View) :
  model_uid v = model_uid w ->
  truthy (show_de_novo v) = truthy (show_de_novo w) ->
  requestDataOf v = requestDataOf w.
Proof. unfold requestDataOf, deNovoParam. by intros -> ->. Qed.

Lemma toggleDeNovo_view (v : View) :
  model_uid (fst (toggleDeNovo v)) = model_uid v /\
  show_de_novo (fst (toggleDeNovo v)) = js_not (show_de_novo v) /\
  refGenomeControlsComponent (fst (toggleDeNovo v)) =
    refGenomeControlsComponent v.
Proof. by unfold toggleDeNovo. Qed.

Lemma toggleDeNovo_twice_requestData (v : View) :
  requestDataOf (fst (toggleDeNovo (fst (toggleDeNovo v)))) = requestDataOf v.
Proof.
  destruct (toggleDeNovo_view v) as (Huid & Hflag & _).
  destruct (toggleDeNovo_view (fst (toggleDeNovo v))) as (Huid' & Hflag' & _).
  apply requestDataOf_flag; [congruence|].
  rewrite Hflag', Hflag, !truthy_js_not. apply negb_involutive.
Qed.

(** C3: whatever the show_de_novo flag holds, handling TOGGLE_DE_NOVO
    once flips the 0/1 value sent as requestData.show_de_novo, and
    handling it twice brings that value back: the request parameters of
    the table component built by the second toggle are those the view
    would have sent before the first, and the same holds when the two
    signals go through the view's listeners. *)
Theorem toggle_de_novo_twice (v : View) :
  let v1 := fst (toggleDeNovo v) in
  let v2 := fst (toggleDeNovo v1) in
  deNovoParam v1 = VNum (if truthy (show_de_novo v) then 0 else 1) /\
  deNovoParam v2 = deNovoParam v /\
  requestDataOf v2 !! "show_de_novo" = requestDataOf v !! "show_de_novo" /\
  sentRequestData v2 = Some (VObj (requestDataOf v)) /\
  requestDataOf (fst (handle (fst (handle v TOGGLE_DE_NOVO)) TOGGLE_DE_NOVO))
    = requestDataOf v.
Proof.
  intros v1 v2.
  pose proof (toggleDeNovo_twice_requestData v) as Htwice. fold v1 v2 in Htwice.
  split; [|split; [|split; [|split]]].
  - unfold deNovoParam, v1. simpl. by destruct (truthy (show_de_novo v)).
  - unfold deNovoParam, v2, v1. simpl. by destruct (truthy (show_de_novo v)).
  - by rewrite Htwice.
  - unfold v2 at 1, toggleDeNovo at 1. rewrite redrawDatatable_sent.
    do 2 f_equal. exact Htwice.
  - unfold handle.
    destruct (refGenomeControlsComponent v) eqn:Hctl; cbv iota.
    + destruct (toggleDeNovo_view v) as (_ & _ & ->). rewrite Hctl. exact Htwice.
    + simpl. by rewrite Hctl.
Qed.

(** C7: [render] sets show_de_novo to true and asks /_/ref_genomes with
    show_de_novo 1; [redrawDatatable] sends the project uid of the model
    together with show_de_novo 1 for a true flag and 0 for a false one;
    and whatever signal the view handles, each request it makes is a GET
    to /_/ref_genomes carrying exactly these two parameters for the
    flag the view then holds. *)
Theorem ref_genomes_request_data
    (v : View) (uid : JsValue) (flag : bool) (s : Signal) :
  show_de_novo (fst (render v)) = VBool true /\
  requests (snd (render v)) =
    [Get (VStr "/_/ref_genomes")
       (VObj {[ "projectUid" := model_uid v; "show_de_novo" := VNum 1 ]})] /\
  requests
    (snd (redrawDatatable
            (mkView uid (VBool flag) (hook v) (datatableComponent v)
               (refGenomeControlsComponent v)))) =
    [Get (VStr "/_/ref_genomes")
       (VObj {[ "projectUid" := uid;
                "show_de_novo" := VNum (if flag then 1 else 0) ]})] /\
  Forall
    (fun e => e = Get (VStr "/_/ref_genomes")
                    (VObj (requestDataOf (fst (handle v s)))))
    (requests (snd (handle v s))).
Proof.
  split; [|split; [|split]].
  - reflexivity.
  - rewrite render_redraws. unfold snd at 1.
    change (requests (?e :: ?t)) with (requests t).
    by rewrite redrawDatatable_requests.
  - by rewrite redrawDatatable_requests.
  - unfold handle. destruct s.
    + destruct (datatableComponent v); simpl; constructor.
    + destruct (refGenomeControlsComponent v); [|constructor].
      rewrite redrawDatatable_requests, redrawDatatable_view.
      by repeat constructor.
    + destruct (refGenomeControlsComponent v); [|constructor].
      unfold toggleDeNovo.
      rewrite redrawDatatable_requests, redrawDatatable_view.
      by repeat constructor.
Qed.

End RefGenomeListViewFacts.

Section RefGenomeListViewExamples.
Import RefGenomeListView Samples.

(** The sequence 1, 0, 1 on a freshly rendered view. *)
Example show_de_novo_sequence :
  let v0 := fst (@render plainBase listView) in
  let v1 := fst (@toggleDeNovo plainBase v0) in
  let v2 := fst (@toggleDeNovo plainBase v1) in
  requestDataOf v0 !! "show_de_novo" = Some (VNum 1) /\
  requestDataOf v1 !! "show_de_novo" = Some (VNum 0) /\
  requestDataOf v2 !! "show_de_novo" = Some (VNum 1).
Proof. repeat split. Qed.

End RefGenomeListViewExamples.

(** ** gd.RefGenomeView *)

Section RefGenomeViewFacts.
Import RefGenomeView Samples.

(** What [handleDownload] leaves in the form depends on the global
    scope and on the format, never on the model of the view. *)
Lemma handleDownload_form (globals : JsObj) (v : View) (file_format : JsValue) :
  form (stateOf (handleDownload globals v file_format)) =
    match globals !! "reference_genome_uid" with
    | None =>
        mkForm [hiddenInput (VStr "file_format") file_format]
          (submitted (form v))
    | Some g =>
        mkForm [hiddenInput (VStr "file_format") file_format;
                hiddenInput (VStr "reference_genome_uid") g]
          (submitted (form v) ++
           [[hiddenInput (VStr "file_format") file_format;
             hiddenInput (VStr "reference_genome_uid") g]])
    end.
Proof. unfold handleDownload. by destruct (globals !! _). Qed.

Lemma handleDownload_completed (globals : JsObj) (v : View) (file_format : JsValue) :
  completed (handleDownload globals v file_format) =
    match globals !! "reference_genome_uid" with
    | Some _ => true
    | None => false
    end.
Proof. unfold handleDownload. by destruct (globals !! _). Qed.

(** The download works as claimed exactly when some other script has
    bound the global identifier to the uid of the model. *)
Lemma handleDownload_bound_to_model (globals : JsObj) (v : View) (file_format : JsValue) :
  globals !! "reference_genome_uid" = Some (model_uid v) ->
  submitted (form (stateOf (handleDownload globals v file_format))) =
    submitted (form v) ++ [expectedFields v file_format].
Proof. intros Hg. by rewrite handleDownload_form, Hg. Qed.

(** C1 (the code departs from the claim): [handleDownload] reads the
    identifier reference_genome_uid, which the view never declares,
    where the claim has the uid of the model. With the identifier
    unbound the call empties the form, appends the file_format field
    and throws before anything is submitted; with the identifier bound
    by some other script, the submitted field carries that binding and
    not the uid of the model. *)
Theorem handleDownload_reads_global :
  handleDownload ∅ genomeView (VStr "fasta") =
    Throw (ReferenceError "reference_genome_uid")
      (mkView (VStr "rg-1") (hook genomeView)
         (mkForm [hiddenInput (VStr "file_format") (VStr "fasta")] [])
         None) /\
  submitted (form (stateOf (handleDownload ∅ genomeView (VStr "genbank")))) = [] /\
  submitted (form (stateOf (handleDownload otherGlobals genomeView (VStr "fasta")))) =
    [[hiddenInput (VStr "file_format") (VStr "fasta");
      hiddenInput (VStr "reference_genome_uid") (VStr "rg-2")]] /\
  expectedFields genomeView (VStr "fasta") =
    [hiddenInput (VStr "file_format") (VStr "fasta");
     hiddenInput (VStr "reference_genome_uid") (VStr "rg-1")].
Proof. repeat split. Qed.

End RefGenomeViewFacts.

(** ** CeleryManager.HomeView *)

Section HomeViewFacts.
Import HomeView Samples.

Lemma elem_of_addClass (cls x : string) (classes : list string) :
  x ∈ addClass cls classes <-> x = cls \/ x ∈ classes.
Proof.
  unfold addClass. destruct (decide (cls ∈ classes)) as [Hin|Hout].
  - split; [by right | by intros [->|?]].
  - rewrite elem_of_app. split.
    + intros [Hx|Hx]; [by right|]. left. by apply list_elem_of_singleton in Hx.
    + intros [->|Hx]; [right; apply list_elem_of_here | by left].
Qed.

Lemma elem_of_removeClass (cls x : string) (classes : list string) :
  x ∈ removeClass cls classes <-> x ≠ cls /\ x ∈ classes.
Proof.
  unfold removeClass.
  apply (list_elem_of_filter (fun c : string => c ≠ cls)).
Qed.

Lemma swapClass (gone added : string) (classes : list string) :
  gone ≠ added ->
  added ∈ addClass added (removeClass gone classes) /\
  gone ∉ addClass added (removeClass gone classes).
Proof.
  intros Hne. split.
  - apply elem_of_addClass. by left.
  - intros Hin. apply elem_of_addClass in Hin as [Heq|Hin]; [done|].
    apply elem_of_removeClass in Hin as [Hgone _]. done.
Qed.

Lemma onTestResponse_error (fs : Fieldset) (data : JsObj) :
  data !! "status" = Some (VStr "error") ->
  onTestResponse fs data = error fs (prop data "message").
Proof.
  intros Hs. apply prop_is_string in Hs. unfold onTestResponse. by rewrite Hs.
Qed.

Lemma onTestResponse_success (fs : Fieldset) (data : JsObj) :
  data !! "status" ≠ Some (VStr "error") ->
  onTestResponse fs data = success fs (VStr "Passed test!").
Proof.
  intros Hs. apply prop_not_string in Hs. unfold onTestResponse. by rewrite Hs.
Qed.

(** C4: for a field that is not optional the validator accepts
    192.168.1.1 and ec2-54-1-2-3.compute-1.amazonaws.com and rejects
    999.1.1.1 and not-a-host. *)
Theorem domainOrIpv4_examples :
  domainOrIpv4 false "192.168.1.1" = true /\
  domainOrIpv4 false "ec2-54-1-2-3.compute-1.amazonaws.com" = true /\
  domainOrIpv4 false "999.1.1.1" = false /\
  domainOrIpv4 false "not-a-host" = false.
Proof. repeat split; vm_compute; reflexivity. Qed.

(** C5: after the response to the connection test has been handled,
    every panel around the fieldset carries panel-danger and not
    panel-success when the status of the response is "error", and
    panel-success and not panel-danger for any other status, a missing
    one included. *)
Theorem test_response_panel_classes (fs : Fieldset) (data : JsObj) :
  let fs' := fst (onTestResponse fs data) in
  length (panels fs') = length (panels fs) /\
  (data !! "status" = Some (VStr "error") ->
   Forall (fun p => "panel-danger" ∈ p /\ "panel-success" ∉ p) (panels fs')) /\
  (data !! "status" ≠ Some (VStr "error") ->
   Forall (fun p => "panel-success" ∈ p /\ "panel-danger" ∉ p) (panels fs')).
Proof.
  intros fs'. subst fs'. split; [|split].
  - unfold onTestResponse, error, success.
    destruct (strict_eq_str _ _); simpl; apply length_map.
  - intros Hs. rewrite onTestResponse_error by done. simpl.
    apply Forall_map, Forall_forall. intros p _. by apply swapClass.
  - intros Hs. rewrite onTestResponse_success by done. simpl.
    apply Forall_map, Forall_forall. intros p _. by apply swapClass.
Qed.

Lemma test_response_panel_classes_witness :
  (errorResponse !! "status" = Some (VStr "error") /\
   Forall (fun p => "panel-danger" ∈ p /\ "panel-success" ∉ p)
     (panels (fst (onTestResponse panelFieldset errorResponse)))) /\
  (okResponse !! "status" ≠ Some (VStr "error") /\
   Forall (fun p => "panel-success" ∈ p /\ "panel-danger" ∉ p)
     (panels (fst (onTestResponse panelFieldset okResponse)))).
Proof.
  assert (Herr : errorResponse !! "status" = Some (VStr "error")) by reflexivity.
  assert (Hok : okResponse !! "status" ≠ Some (VStr "error")).
  { vm_compute. intros [=]. }
  split; split; try assumption.
  - apply (test_response_panel_classes panelFieldset errorResponse), Herr.
  - apply (test_response_panel_classes panelFieldset okResponse), Hok.
Defined.

(** C9: for every response whose status is not "error" the one alert
    shown is the fixed text "Passed test!", whatever the message field
    holds; the message of the server is shown only when the status is
    "error". *)
Theorem test_response_alert (fs : Fieldset) (data : JsObj) :
  (data !! "status" ≠ Some (VStr "error") ->
   alerts (snd (onTestResponse fs data)) = [VStr "Passed test!"]) /\
  (data !! "status" = Some (VStr "error") ->
   alerts (snd (onTestResponse fs data)) = [prop data "message"]).
Proof.
  split; intros Hs.
  - by rewrite onTestResponse_success.
  - by rewrite onTestResponse_error.
Qed.

Lemma test_response_alert_witness :
  (okResponse !! "status" ≠ Some (VStr "error") /\
   alerts (snd (onTestResponse panelFieldset okResponse))
     = [VStr "Passed test!"]) /\
  (errorResponse !! "status" = Some (VStr "error") /\
   alerts (snd (onTestResponse panelFieldset errorResponse))
     = [VStr "bad host"]).
Proof.
  assert (Herr : errorResponse !! "status" = Some (VStr "error")) by reflexivity.
  assert (Hok : okResponse !! "status" ≠ Some (VStr "error")).
  { vm_compute. intros [=]. }
  split; split; try assumption.
  - apply (test_response_alert panelFieldset okResponse), Hok.
  - apply (proj2 (test_response_alert panelFieldset errorResponse) Herr).
Defined.

End HomeViewFacts.

(** ** The host names the validator accepts *)

Section HostFacts.
Import Regexp Hosts HomeView.

Lemma matchList_cons (r : regex) (c : ascii) (w : list ascii) :
  matchList r (c :: w) = matchList (deriv c r) w.
Proof. reflexivity. Qed.

Lemma matchList_not_matches (r : regex) (w : list ascii) :
  ~ matches r w -> matchList r w = false.
Proof.
  intros Hno. destruct (matchList r w) eqn:Hm; [|reflexivity].
  by apply matchList_matches in Hm.
Qed.

Lemma matches_Cat (r s : regex) (w : list ascii) :
  matches (Cat r s) w <->
  exists u v, w = u ++ v /\ matches r u /\ matches s v.
Proof.
  split.
  - inversion 1; subst. by eexists _, _.
  - intros (u & v & -> & Hu & Hv). by apply MCat.
Qed.

Lemma emptyLang_matches (r : regex) (w : list ascii) :
  emptyLang r = true -> ~ matches r w.
Proof.
  revert w. induction r as [| |p|r IHr s IHs|r IHr s IHs|r IHr];
    intros w; simpl; try discriminate.
  - intros _. inversion 1.
  - intros He Hm. apply matches_Cat in Hm as (u & v & _ & Hu & Hv).
    apply orb_true_iff in He as [He|He]; [by apply (IHr u) | by apply (IHs v)].
  - intros He Hm. apply andb_true_iff in He as [Hr Hs].
    inversion Hm; subst; [by apply (IHr w) | by apply (IHs w)].
Qed.

Lemma onlyEps_matches (r : regex) (w : list ascii) :
  onlyEps r = true -> matches r w -> w = [].
Proof.
  revert w. induction r as [| |p|r IHr s IHs|r IHr s IHs|r IHr];
    intros w; simpl; try discriminate.
  - intros _. inversion 1.
  - intros _. by inversion 1.
  - intros He Hm. apply matches_Cat in Hm as (u & v & -> & Hu & Hv).
    apply orb_true_iff in He as [He|He].
    + apply orb_true_iff in He as [He|He];
        [by apply emptyLang_matches in Hu | by apply emptyLang_matches in Hv].
    + apply andb_true_iff in He as [Hr Hs].
      by rewrite (IHr u Hr Hu), (IHs v Hs Hv).
  - intros He Hm. apply andb_true_iff in He as [Hr Hs].
    inversion Hm; subst; [by apply IHr | by apply IHs].
  - intros He Hm. inversion Hm; subst; [reflexivity | by apply IHr].
Qed.

Lemma In_allAscii (c : ascii) : In c allAscii.
Proof.
  unfold allAscii. apply in_map_iff. exists (nat_of_ascii c). split.
  - apply ascii_nat_embedding.
  - apply in_seq. pose proof (nat_ascii_bounded c). lia.
Qed.

Lemma forallb_allAscii (f : ascii -> bool) :
  forallb f allAscii = true -> forall c, f c = true.
Proof.
  intros Hall c. rewrite forallb_forall in Hall. apply Hall, In_allAscii.
Qed.

Lemma octetTable_true : octetTable = true.
Proof. vm_compute. reflexivity. Qed.

(** The octet pattern accepts exactly one to three digits up to 255. *)
Lemma matchList_octet (w : list ascii) : matchList octet w = isOctet w.
Proof.
  pose proof octetTable_true as T. unfold octetTable in T.
  destruct w as [|a w]; [reflexivity|].
  pose proof (forallb_allAscii _ T a) as Ta. cbv beta in Ta. clear T.
  rewrite matchList_cons.
  destruct (isDigit a) eqn:Ha; cycle 1.
  { rewrite matchList_not_matches by (by apply emptyLang_matches).
    unfold isOctet. destruct w as [|b [|c [|d w]]]; by rewrite ?Ha. }
  apply andb_true_iff in Ta as [Ea Tb]. apply Bool.eqb_prop in Ea.
  destruct w as [|b w]; [exact Ea|].
  pose proof (forallb_allAscii _ Tb b) as Tb'. cbv beta in Tb'. clear Tb.
  rewrite matchList_cons.
  destruct (isDigit b) eqn:Hb; cycle 1.
  { rewrite matchList_not_matches by (by apply emptyLang_matches).
    unfold isOctet. destruct w as [|c [|d w]]; by rewrite ?Ha, ?Hb. }
  apply andb_true_iff in Tb' as [Eb Tc]. apply Bool.eqb_prop in Eb.
  destruct w as [|c w]; [exact Eb|].
  pose proof (forallb_allAscii _ Tc c) as Tc'. cbv beta in Tc'. clear Tc.
  rewrite matchList_cons.
  destruct (isDigit c) eqn:Hc; cycle 1.
  { rewrite matchList_not_matches by (by apply emptyLang_matches).
    unfold isOctet. destruct w as [|d w]; by rewrite ?Ha, ?Hb, ?Hc. }
  apply andb_true_iff in Tc' as [Ec Td]. apply Bool.eqb_prop in Ec.
  destruct w as [|d w]; [exact Ec|].
  apply matchList_not_matches. intros Hm.
  by apply (onlyEps_matches _ _ Td) in Hm.
Qed.

Lemma matches_octet (w : list ascii) : matches octet w <-> isOctet w = true.
Proof. by rewrite <- matchList_matches, matchList_octet. Qed.

Lemma matches_chr (c : ascii) (w : list ascii) :
  matches (chr c) w <-> exists x, w = [x] /\ canonical x = canonical c.
Proof.
  unfold chr. split.
  - inversion 1 as [|p x Hx| | | | |]; subst. exists x. split; [done|].
    by apply Nat.eqb_eq.
  - intros (x & -> & Hx). constructor. by apply Nat.eqb_eq.
Qed.

Lemma matches_lit (s : string) (w : list ascii) :
  matches (lit s) w <-> sameCase w (chars s).
Proof.
  unfold sameCase, chars. revert w.
  induction s as [|c s IH]; intros w.
  - simpl. split.
    + by inversion 1.
    + intros Hw. apply map_eq_nil in Hw as ->. constructor.
  - destruct s as [|c' s'].
    + change (lit (String c EmptyString)) with (chr c). rewrite matches_chr.
      simpl. split.
      * intros (x & -> & Hx). simpl. by rewrite Hx.
      * destruct w as [|x [|y w]]; simpl; intros [=]. by exists x.
    + change (lit (String c (String c' s')))
        with (Cat (chr c) (lit (String c' s'))).
      rewrite matches_Cat. split.
      * intros (u & v & -> & Hu & Hv). apply matches_chr in Hu as (x & -> & Hx).
        apply IH in Hv. simpl in *. by rewrite Hx, Hv.
      * destruct w as [|x w]; [intros [=]|]. intros Hw.
        change (String.list_ascii_of_string (String c (String c' s')))
          with (c :: String.list_ascii_of_string (String c' s')) in Hw.
        simpl in Hw. injection Hw as Hx Hw.
        exists [x], w. split; [done|]. split.
        -- apply matches_chr. by exists x.
        -- by apply IH.
Qed.

Lemma plain_separators :
  forallb (fun x =>
    implb (canonical x =? canonical "."%char)%nat (Ascii.eqb x "."%char) &&
    implb (canonical x =? canonical "-"%char)%nat (Ascii.eqb x "-"%char))
    allAscii = true.
Proof. vm_compute. reflexivity. Qed.

Lemma sameCase_dot (w : list ascii) :
  sameCase w (chars ".") <-> w = ["."%char].
Proof.
  unfold sameCase, chars. split; [|by intros ->].
  destruct w as [|x [|y w]]; simpl; intros [= Hx].
  pose proof (forallb_allAscii _ plain_separators x) as Hsep. cbv beta in Hsep.
  apply andb_true_iff in Hsep as [Hdot _].
  destruct (canonical x =? canonical "."%char)%nat eqn:E.
  - apply Ascii.eqb_eq in Hdot. by subst.
  - apply Nat.eqb_neq in E. exfalso. apply E. exact Hx.
Qed.

Lemma sameCase_hyphen (w : list ascii) :
  sameCase w (chars "-") <-> w = ["-"%char].
Proof.
  unfold sameCase, chars. split; [|by intros ->].
  destruct w as [|x [|y w]]; simpl; intros [= Hx].
  pose proof (forallb_allAscii _ plain_separators x) as Hsep. cbv beta in Hsep.
  apply andb_true_iff in Hsep as [_ Hhyp].
  destruct (canonical x =? canonical "-"%char)%nat eqn:E.
  - apply Ascii.eqb_eq in Hhyp. by subst.
  - apply Nat.eqb_neq in E. exfalso. apply E. exact Hx.
Qed.

End HostFacts.

Section ValidatorFacts.
Import Regexp Hosts HomeView.

Lemma matches_ipv4regex (w : list ascii) :
  matches ipv4regex w <-> dottedQuad w.
Proof.
  change ipv4regex with
    (Cat octet (Cat (lit ".") (Cat octet (Cat (lit ".")
       (Cat octet (Cat (lit ".") octet)))))).
  unfold dottedQuad. split.
  - intros Hm.
    apply matches_Cat in Hm as (a & w1 & -> & Ha & Hm).
    apply matches_Cat in Hm as (s1 & w2 & -> & Hs1 & Hm).
    apply matches_Cat in Hm as (b & w3 & -> & Hb & Hm).
    apply matches_Cat in Hm as (s2 & w4 & -> & Hs2 & Hm).
    apply matches_Cat in Hm as (c & w5 & -> & Hc & Hm).
    apply matches_Cat in Hm as (s3 & d & -> & Hs3 & Hd).
    apply matches_lit, sameCase_dot in Hs1 as ->.
    apply matches_lit, sameCase_dot in Hs2 as ->.
    apply matches_lit, sameCase_dot in Hs3 as ->.
    apply matches_octet in Ha, Hb, Hc, Hd.
    by exists a, b, c, d.
  - intros (a & b & c & d & -> & Ha & Hb & Hc & Hd).
    apply matches_octet in Ha, Hb, Hc, Hd.
    assert (Hdot : matches (lit ".") ["."%char])
      by by apply matches_lit, sameCase_dot.
    apply MCat; [done|]. apply (MCat _ _ ["."%char]); [done|].
    apply MCat; [done|]. apply (MCat _ _ ["."%char]); [done|].
    apply MCat; [done|]. by apply (MCat _ _ ["."%char]).
Qed.

Lemma matches_ec2regex (w : list ascii) :
  matches ec2regex w <-> ec2Host w.
Proof.
  change ec2regex with
    (Cat (lit "ec2-") (Cat octet (Cat (lit "-") (Cat octet (Cat (lit "-")
       (Cat octet (Cat (lit "-") (Cat octet
          (lit ".compute-1.amazonaws.com"))))))))).
  unfold ec2Host. split.
  - intros Hm.
    apply matches_Cat in Hm as (p & w0 & -> & Hp & Hm).
    apply matches_Cat in Hm as (a & w1 & -> & Ha & Hm).
    apply matches_Cat in Hm as (s1 & w2 & -> & Hs1 & Hm).
    apply matches_Cat in Hm as (b & w3 & -> & Hb & Hm).
    apply matches_Cat in Hm as (s2 & w4 & -> & Hs2 & Hm).
    apply matches_Cat in Hm as (c & w5 & -> & Hc & Hm).
    apply matches_Cat in Hm as (s3 & w6 & -> & Hs3 & Hm).
    apply matches_Cat in Hm as (d & q & -> & Hd & Hq).
    apply matches_lit, sameCase_hyphen in Hs1 as ->.
    apply matches_lit, sameCase_hyphen in Hs2 as ->.
    apply matches_lit, sameCase_hyphen in Hs3 as ->.
    apply matches_lit in Hp, Hq.
    apply matches_octet in Ha, Hb, Hc, Hd.
    by exists p, a, b, c, d, q.
  - intros (p & a & b & c & d & q & -> & Hp & Hq & Ha & Hb & Hc & Hd).
    apply matches_octet in Ha, Hb, Hc, Hd.
    apply matches_lit in Hp, Hq.
    assert (Hhyp : matches (lit "-") ["-"%char])
      by by apply matches_lit, sameCase_hyphen.
    apply MCat; [done|].
    apply MCat; [done|]. apply (MCat _ _ ["-"%char]); [done|].
    apply MCat; [done|]. apply (MCat _ _ ["-"%char]); [done|].
    apply MCat; [done|]. apply (MCat _ _ ["-"%char]); [done|].
    by apply MCat.
Qed.

Lemma deriv_caseBlind (r : regex) (x y : ascii) :
  caseBlind r -> canonical x = canonical y -> deriv x r = deriv y r.
Proof.
  intros Hr Hxy. induction r as [| |p|r IHr s IHs|r IHr s IHs|r IHr]; simpl in *.
  - reflexivity.
  - reflexivity.
  - by rewrite (Hr x y Hxy).
  - destruct Hr as [Hr Hs]. by rewrite IHr, IHs.
  - destruct Hr as [Hr Hs]. by rewrite IHr, IHs.
  - by apply IHr.
Qed.

Lemma caseBlind_deriv (r : regex) (x : ascii) :
  caseBlind r -> caseBlind (deriv x r).
Proof.
  induction r as [| |p|r IHr s IHs|r IHr s IHs|r IHr]; simpl; try done.
  - intros _. by destruct (p x).
  - intros [Hr Hs]. destruct (nullable r); simpl; auto.
  - intros [Hr Hs]. auto.
Qed.

Lemma matchList_sameCase (r : regex) (u w : list ascii) :
  caseBlind r -> sameCase u w -> matchList r u = matchList r w.
Proof.
  unfold sameCase. revert r w.
  induction u as [|x u IH]; intros r [|y w] Hr Huw; try discriminate Huw.
  - reflexivity.
  - simpl in Huw. injection Huw as Hxy Huw. simpl.
    rewrite (deriv_caseBlind r x y Hr Hxy).
    apply IH; [by apply caseBlind_deriv | done].
Qed.

Lemma caseBlind_chr (c : ascii) : caseBlind (chr c).
Proof. unfold chr; simpl. by intros x y ->. Qed.

Lemma caseBlind_range (lo hi : ascii) : caseBlind (range lo hi).
Proof. unfold range; simpl. by intros x y ->. Qed.

Lemma caseBlind_lit (s : string) : caseBlind (lit s).
Proof.
  induction s as [|c s IH]; [done|].
  destruct s as [|c' s']; [apply caseBlind_chr|].
  change (caseBlind (chr c) /\ caseBlind (lit (String c' s'))).
  split; [apply caseBlind_chr | exact IH].
Qed.

Lemma caseBlind_octet : caseBlind octet.
Proof.
  unfold octet, digit.
  repeat (first [ split | apply caseBlind_lit | apply caseBlind_chr
                | apply caseBlind_range ]).
Qed.

Lemma caseBlind_ipv4regex : caseBlind ipv4regex.
Proof.
  change ipv4regex with
    (Cat octet (Cat (lit ".") (Cat octet (Cat (lit ".")
       (Cat octet (Cat (lit ".") octet)))))).
  repeat (first [ apply caseBlind_octet | apply caseBlind_lit | split ]).
Qed.

Lemma caseBlind_ec2regex : caseBlind ec2regex.
Proof.
  change ec2regex with
    (Cat (lit "ec2-") (Cat octet (Cat (lit "-") (Cat octet (Cat (lit "-")
       (Cat octet (Cat (lit "-") (Cat octet
          (lit ".compute-1.amazonaws.com"))))))))).
  repeat (first [ apply caseBlind_octet | apply caseBlind_lit | split ]).
Qed.

(** X1: the IPv4 pattern of the validator accepts a value exactly when
    the value is four parts separated by three dots, each part one to
    three decimal digits with a value of at most 255 (leading zeros
    allowed), and nothing before, between or after. *)
Theorem ipv4regex_accepts_dotted_quads (value : string) :
  Regexp.test ipv4regex value = true <-> dottedQuad (chars value).
Proof.
  unfold Regexp.test. rewrite matchList_matches. apply matches_ipv4regex.
Qed.

(** X2: the EC2 pattern of the validator accepts a value exactly when
    the value is ec2-, four such octets separated by hyphens, and
    .compute-1.amazonaws.com, the letters in either case. *)
Theorem ec2regex_accepts_ec2_hosts (value : string) :
  Regexp.test ec2regex value = true <-> ec2Host (chars value).
Proof.
  unfold Regexp.test. rewrite matchList_matches. apply matches_ec2regex.
Qed.

(** X3: the validator does not look at the case of letters: two values
    that differ only in the case of ASCII letters are both accepted or
    both rejected. *)
Theorem domainOrIpv4_ignores_case (optional : bool) (value1 value2 : string) :
  sameCase (chars value1) (chars value2) ->
  domainOrIpv4 optional value1 = domainOrIpv4 optional value2.
Proof.
  intros Hsame. unfold domainOrIpv4, Regexp.test. unfold chars in Hsame.
  by rewrite (matchList_sameCase ec2regex _ _ caseBlind_ec2regex Hsame),
             (matchList_sameCase ipv4regex _ _ caseBlind_ipv4regex Hsame).
Qed.

Lemma domainOrIpv4_ignores_case_witness :
  sameCase (chars "EC2-54-1-2-3.Compute-1.AmazonAWS.com")
    (chars "ec2-54-1-2-3.compute-1.amazonaws.com") /\
  domainOrIpv4 false "EC2-54-1-2-3.Compute-1.AmazonAWS.com" =
    domainOrIpv4 false "ec2-54-1-2-3.compute-1.amazonaws.com".
Proof.
  assert (Hsame : sameCase (chars "EC2-54-1-2-3.Compute-1.AmazonAWS.com")
                    (chars "ec2-54-1-2-3.compute-1.amazonaws.com"))
    by reflexivity.
  split; [exact Hsame|].
  exact (domainOrIpv4_ignores_case false _ _ Hsame).
Defined.

End ValidatorFacts.

(** ** Panel and form-group classes of the admin page *)

Section ClassFacts.
Import HomeView Samples.

Lemma removeClass_absent (cls : string) (classes : list string) :
  cls ∉ classes -> removeClass cls classes = classes.
Proof.
  unfold removeClass. induction classes as [|c classes IH]; intros Hout.
  - reflexivity.
  - apply not_elem_of_cons in Hout as [Hne Hout].
    rewrite filter_cons_True by done. by rewrite IH.
Qed.

Lemma addClass_present (cls : string) (classes : list string) :
  cls ∈ classes -> addClass cls classes = classes.
Proof. intros Hin. unfold addClass. by rewrite decide_True. Qed.

Lemma removeClass_addClass (cls : string) (classes : list string) :
  cls ∉ classes -> removeClass cls (addClass cls classes) = classes.
Proof.
  intros Hout. unfold addClass. rewrite decide_False by done.
  unfold removeClass. rewrite filter_app.
  fold (removeClass cls classes). rewrite removeClass_absent by done.
  rewrite filter_cons_False by (intros Hne; by apply Hne).
  by rewrite filter_nil, app_nil_r.
Qed.

(** The two class changes a response can cause, on one panel. *)
Lemma onTestResponse_panels (fs : Fieldset) (data : JsObj) :
  exists added gone : string,
    (added = "panel-success" /\ gone = "panel-danger" \/
     added = "panel-danger" /\ gone = "panel-success") /\
    (added = "panel-danger" <-> data !! "status" = Some (VStr "error")) /\
    panels (fst (onTestResponse fs data)) =
      map (fun p => addClass added (removeClass gone p)) (panels fs).
Proof.
  unfold onTestResponse.
  destruct (strict_eq_str (prop data "status") "error") eqn:Hs.
  - exists "panel-danger", "panel-success". split; [by right|]. split; [|done].
    apply prop_is_string in Hs. by split.
  - exists "panel-success", "panel-danger". split; [by left|]. split; [|done].
    apply prop_not_string in Hs. split; [done | by intros ?].
Qed.

Lemma swap_membership (added gone x : string) (classes : list string) :
  x ∈ addClass added (removeClass gone classes) <->
  x = added \/ (x ≠ gone /\ x ∈ classes).
Proof. by rewrite elem_of_addClass, elem_of_removeClass. Qed.

(** X4: handling a response touches no class but panel-success and
    panel-danger: every other class is on a panel afterwards exactly
    when it was there before, and no panel is gained or lost. *)
Theorem test_response_keeps_other_classes
    (fs : Fieldset) (data : JsObj) (cls : string) :
  cls ≠ "panel-success" -> cls ≠ "panel-danger" ->
  Forall2 (fun before after => cls ∈ after <-> cls ∈ before)
    (panels fs) (panels (fst (onTestResponse fs data))).
Proof.
  intros Hs Hd.
  destruct (onTestResponse_panels fs data) as (added & gone & Hwhich & _ & ->).
  apply Forall2_fmap_r, Forall_Forall2_diag, Forall_forall. intros p _.
  unfold compose. rewrite swap_membership.
  destruct Hwhich as [[-> ->]|[-> ->]]; intuition congruence.
Qed.

Lemma test_response_keeps_other_classes_witness :
  Forall2 (fun before after => "panel-default" ∈ after <-> "panel-default" ∈ before)
    (panels panelFieldset)
    (panels (fst (onTestResponse panelFieldset errorResponse))).
Proof.
  apply (test_response_keeps_other_classes panelFieldset errorResponse
           "panel-default"); discriminate.
Defined.

(** X5: the last response wins: after two responses in a row every
    panel carries the same classes as if only the second had been
    handled. *)
Theorem test_response_last_wins (fs : Fieldset) (first second : JsObj) :
  Forall2 (fun both last => forall cls : string, cls ∈ both <-> cls ∈ last)
    (panels (fst (onTestResponse (fst (onTestResponse fs first)) second)))
    (panels (fst (onTestResponse fs second))).
Proof.
  destruct (onTestResponse_panels (fst (onTestResponse fs first)) second)
    as (a2 & g2 & Hw2 & Hs2 & ->).
  destruct (onTestResponse_panels fs second) as (a2' & g2' & Hw2' & Hs2' & ->).
  destruct (onTestResponse_panels fs first) as (a1 & g1 & Hw1 & _ & ->).
  assert (a2' = a2 /\ g2' = g2) as [-> ->].
  { destruct Hw2 as [[-> ->]|[-> ->]], Hw2' as [[-> ->]|[-> ->]];
      try done; exfalso.
    - assert ("panel-success" = "panel-danger") by (apply Hs2, Hs2'; done).
      done.
    - assert ("panel-success" = "panel-danger") by (apply Hs2', Hs2; done).
      done. }
  rewrite <- list_fmap_compose.
  apply Forall2_fmap, Forall_Forall2_diag, Forall_forall. intros p _ cls.
  unfold compose. rewrite !swap_membership.
  destruct (decide (cls = a2)) as [->|Hne]; [by split; left|].
  destruct Hw1 as [[-> ->]|[-> ->]], Hw2 as [[-> ->]|[-> ->]];
    intuition congruence.
Qed.

(** X6: handling responses of the same kind twice leaves each class
    attribute exactly as after the first: nothing is appended twice. *)
Theorem test_response_repeat (fs : Fieldset) (data : JsObj) :
  panels (fst (onTestResponse (fst (onTestResponse fs data)) data)) =
  panels (fst (onTestResponse fs data)).
Proof.
  destruct (onTestResponse_panels (fst (onTestResponse fs data)) data)
    as (a2 & g2 & Hw2 & Hs2 & ->).
  destruct (onTestResponse_panels fs data) as (a1 & g1 & Hw1 & Hs1 & ->).
  assert (a2 = a1 /\ g2 = g1) as [-> ->].
  { destruct Hw1 as [[-> ->]|[-> ->]], Hw2 as [[-> ->]|[-> ->]];
      try done; exfalso.
    - assert ("panel-success" = "panel-danger") by (apply Hs1, Hs2; done).
      done.
    - assert ("panel-success" = "panel-danger") by (apply Hs2, Hs1; done).
      done. }
  rewrite <- list_fmap_compose. apply list_fmap_ext. intros _ p _.
  unfold compose.
  assert (Hne : g1 ≠ a1) by (destruct Hw1 as [[-> ->]|[-> ->]]; done).
  destruct (swapClass g1 a1 p Hne) as [Hin Hout].
  rewrite (removeClass_absent g1 _ Hout). by apply addClass_present.
Qed.

(** X7: on a form group that was not marked, the validator's
    [highlight] followed by its [success] gives back the class list as
    it was; and [highlight] on a form group already marked changes
    nothing. *)
Theorem highlight_success_round_trip (formGroup : option (list string)) :
  (forall classes, formGroup = Some classes -> "has-error" ∉ classes ->
   Router.success (Router.highlight formGroup) = formGroup) /\
  (forall classes, formGroup = Some classes -> "has-error" ∈ classes ->
   Router.highlight formGroup = formGroup) /\
  (formGroup = None ->
   Router.highlight formGroup = None /\ Router.success formGroup = None).
Proof.
  split; [|split].
  - intros classes -> Hout. simpl. by rewrite removeClass_addClass.
  - intros classes -> Hin. simpl. by rewrite addClass_present.
  - by intros ->.
Qed.

Lemma highlight_success_round_trip_witness :
  Router.success (Router.highlight (Some ["form-group"])) = Some ["form-group"] /\
  Router.highlight (Some ["form-group"; "has-error"])
    = Some ["form-group"; "has-error"] /\
  Router.highlight None = None.
Proof.
  pose proof (highlight_success_round_trip (Some ["form-group"])) as (H1 & _ & _).
  pose proof (highlight_success_round_trip (Some ["form-group"; "has-error"]))
    as (_ & H2 & _).
  pose proof (highlight_success_round_trip None) as (_ & _ & H3).
  split; [|split].
  - apply (H1 ["form-group"] eq_refl).
    apply not_elem_of_cons. split; [done | apply not_elem_of_nil].
  - apply (H2 ["form-group"; "has-error"] eq_refl).
    apply list_elem_of_further, list_elem_of_here.
  - apply H3. reflexivity.
Defined.

End ClassFacts.

(** ** CeleryManager.Router *)

Section RouterFacts.
Import Router.

Lemma split_first (sep : ascii) (s : string) :
  exists (root : string) (others : list string),
    split sep s = root :: others /\
    ~ In sep (String.list_ascii_of_string root) /\
    (others = [] /\ s = root \/
     others <> [] /\ exists rest, s = root +:+ String sep rest).
Proof.
  induction s as [|c s (root & others & Hsplit & Hfree & Hshape)]; simpl.
  - exists EmptyString, []. split; [done|]. split; [by intros []|]. by left.
  - destruct (Ascii.eqb c sep) eqn:Hc.
    + apply Ascii.eqb_eq in Hc as ->.
      exists EmptyString, (split sep s). split; [done|].
      split; [by intros []|]. right. split; [by rewrite Hsplit | by exists s].
    + apply Ascii.eqb_neq in Hc. rewrite Hsplit.
      exists (String c root), others. split; [done|]. split.
      * simpl. intros [?|?]; [by subst | done].
      * destruct Hshape as [[-> ->]|[Hne (rest & ->)]]; [by left|].
        right. split; [done|]. by exists rest.
Qed.

(** X8: the URL root kept by the router is always a string, holds no
    question mark, and is the whole address when the address has no
    query, otherwise the part of the address before its first question
    mark. *)
Theorem urlRoot_before_query (href : string) :
  exists root : string,
    urlRoot href = VStr root /\
    ~ In "?"%char (String.list_ascii_of_string root) /\
    (href = root \/ exists query, href = root +:+ String "?"%char query).
Proof.
  unfold urlRoot.
  destruct (split_first "?"%char href) as (root & others & -> & Hfree & Hshape).
  exists root. split; [done|]. split; [done|].
  destruct Hshape as [[_ ->]|[_ Hq]]; [by left | by right].
Qed.

End RouterFacts.

(** ** More on gd.DataTableComponent *)

Section DataTableComponentMore.
Context `{AbstractDataTableComponent}.

Lemma render_options (c : Component) :
  options (fst (render c)) = options c.
Proof. rewrite render_component. apply updateDatatable_keeps. Qed.

(** X10: when the response to the data request arrives with an obj_list
    and a field_config that are lists, the options take these two
    lists, replacing lists that were passed directly, the displayable
    lists become their normalised forms, and the widget is instantiated
    on them: provided the extra parameters carry neither aaData nor
    aoColumns, the rows and columns of the new widget are the
    normalised lists of the response. *)
Theorem server_response_is_displayed
    (c : Component) (response : JsObj) (rows cols : list JsValue) :
  response !! "obj_list" = Some (VArr rows) ->
  response !! "field_config" = Some (VArr cols) ->
  extraDatatableParams (options c) ≫= (fun extra => extra !! "aaData") = None ->
  extraDatatableParams (options c) ≫= (fun extra => extra !! "aoColumns") = None ->
  let r := onServerResponse c response in
  objList (options (fst r)) = Some (VArr rows) /\
  fieldConfig (options (fst r)) = Some (VArr cols) /\
  displayableObjList (fst r) = makeDisplayableObjectList (VArr rows) /\
  displayableFieldConfig (fst r) = makeDisplayableFieldConfig (VArr cols) /\
  (exists w : Widget, datatable (fst r) = Some w /\ DataTableInit w ∈ snd r) /\
  displayedRows (fst r) = Some (makeDisplayableObjectList (VArr rows)) /\
  displayedColumns (fst r) = Some (makeDisplayableFieldConfig (VArr cols)).
Proof.
  intros Hobjs Hcfg Hrows Hcols r. subst r. unfold onServerResponse.
  set (c2 := set_displayable _ _ _).
  rewrite render_component, render_trace.
  assert (Hd1 : displayableObjList c2 = makeDisplayableObjectList (VArr rows))
    by (unfold c2, prop; simpl; by rewrite Hobjs).
  assert (Hd2 : displayableFieldConfig c2 = makeDisplayableFieldConfig (VArr cols))
    by (unfold c2, prop; simpl; by rewrite Hcfg).
  destruct (updateDatatable_keeps c2 (displayableObjList c2)
              (displayableFieldConfig c2)) as (-> & -> & ->).
  destruct (updateDatatable_merge c2 (displayableObjList c2)
              (displayableFieldConfig c2)) as (w & Hw & Hinit & Hmerge).
  split; [unfold c2, prop; simpl; by rewrite Hobjs|].
  split; [unfold c2, prop; simpl; by rewrite Hcfg|].
  split; [exact Hd1|]. split; [exact Hd2|].
  split.
  { exists w. split; [exact Hw|]. apply elem_of_app. by left. }
  unfold displayedRows, displayedColumns. rewrite Hw; simpl.
  rewrite Hmerge, !lookup_merged.
  change (extraDatatableParams (options c2))
    with (extraDatatableParams (options c)).
  rewrite Hrows, Hcols, Hd1, Hd2. by split.
Qed.

(** X11: with a serverTarget the constructor draws nothing: lists
    passed directly are neither normalised nor displayed, the hook
    element is left as it was, and the only effect is the one GET. *)
Theorem server_target_defers_drawing
    (o : Options) (hook : Element) (url : JsValue) :
  serverTarget o = Some url ->
  let r := initialize o hook in
  el (fst r) = hook /\
  options (fst r) = o /\
  displayableObjList (fst r) = VUndefined /\
  displayableFieldConfig (fst r) = VUndefined /\
  displayedRows (fst r) = None /\
  snd r = [Get url (orUndefined (requestData o))].
Proof.
  intros Hurl. unfold initialize. rewrite Hurl.
  unfold initializeFromServerTarget; simpl. by rewrite Hurl.
Qed.

(** X12: [update] never asks the server target for data again: it
    leaves the options as they are, and its only request is the one for
    the controls fragment, repeated on every call when a controls
    template was given. *)
Theorem update_requests_only_controls (c : Component) (objs cfg : JsValue) :
  options (fst (update c objs cfg)) = options c /\
  requests (snd (update c objs cfg)) =
    match controlsTemplate (options c) with
    | Some template =>
        [ControlsGet template (orUndefined (requestData (options c)))]
    | None => []
    end.
Proof.
  unfold update. split.
  - by rewrite render_options.
  - by rewrite render_requests.
Qed.

Lemma chars_append (a b : string) :
  String.list_ascii_of_string (a +:+ b) =
  String.list_ascii_of_string a ++ String.list_ascii_of_string b.
Proof. induction a as [|c a IH]; [done|]. simpl. by rewrite <- IH. Qed.

Lemma append_inv_tail (a b suffix : string) :
  a +:+ suffix = b +:+ suffix -> a = b.
Proof.
  intros Heq. apply (f_equal String.list_ascii_of_string) in Heq.
  rewrite !chars_append in Heq. apply app_inv_tail in Heq.
  apply (f_equal String.string_of_list_ascii) in Heq.
  by rewrite !String.string_of_list_ascii_of_string in Heq.
Qed.

(** X13: table ids are as distinct as the hook ids: two components on
    hooks with different ids get tables with different ids, while every
    hook without an id attribute gets the table id
    "undefined-datatable". *)
Theorem table_id_from_hook_id
    (c1 c2 : Component) (objs1 cfg1 objs2 cfg2 : JsValue) :
  (forall i j : string,
     el_id (el c1) = Some i -> el_id (el c2) = Some j -> i <> j ->
     datatableId (fst (updateDatatable c1 objs1 cfg1)) <>
       datatableId (fst (updateDatatable c2 objs2 cfg2))) /\
  (el_id (el c1) = None ->
   datatableId (fst (updateDatatable c1 objs1 cfg1))
     = Some "undefined-datatable").
Proof.
  unfold updateDatatable; simpl. unfold attrIdPlus. split.
  - intros i j -> -> Hne; simpl. intros [= Heq].
    by apply append_inv_tail in Heq.
  - by intros ->.
Qed.

End DataTableComponentMore.

(** ** More on gd.RefGenomeView *)

Section RefGenomeViewMore.
Import RefGenomeView.

Lemma handleDownload_frame (globals : JsObj) (v : View) (file_format : JsValue) :
  model_uid (stateOf (handleDownload globals v file_format)) = model_uid v /\
  hook (stateOf (handleDownload globals v file_format)) = hook v /\
  datatableComponent (stateOf (handleDownload globals v file_format)) =
    datatableComponent v.
Proof. unfold handleDownload. by destruct (globals !! _). Qed.

(** X14: with the identifier bound, and for formats and a uid made of
    letters, digits, hyphens, underscores and dots (values that need no
    escaping, so that each appended piece of markup is one hidden
    input), downloads do not pile up in the form: whatever the form
    held before, after a download it holds exactly the two hidden
    inputs of that download, and two downloads in a row submit two
    forms of two inputs each, after the earlier submissions. *)
Theorem downloads_do_not_accumulate
    (globals : JsObj) (v : View) (uid format1 format2 : JsValue) :
  globals !! "reference_genome_uid" = Some uid ->
  Markup.plainValue uid = true ->
  Markup.plainValue format1 = true ->
  Markup.plainValue format2 = true ->
  let v1 := stateOf (handleDownload globals v format1) in
  let v2 := stateOf (handleDownload globals v1 format2) in
  children (form v1) =
    [hiddenInput (VStr "file_format") format1;
     hiddenInput (VStr "reference_genome_uid") uid] /\
  children (form v2) =
    [hiddenInput (VStr "file_format") format2;
     hiddenInput (VStr "reference_genome_uid") uid] /\
  submitted (form v2) =
    submitted (form v) ++
    [[hiddenInput (VStr "file_format") format1;
      hiddenInput (VStr "reference_genome_uid") uid];
     [hiddenInput (VStr "file_format") format2;
      hiddenInput (VStr "reference_genome_uid") uid]].
Proof.
  intros Hg _ _ _ v1 v2. subst v1 v2.
  rewrite !handleDownload_form, Hg. simpl.
  split; [done|]. split; [done|]. by rewrite <- app_assoc.
Qed.

(** X15: [handleDownload] completes exactly when the identifier
    reference_genome_uid is bound in the global scope; when it is not,
    the call throws a ReferenceError after the form has been emptied and
    the file_format field appended, and nothing is submitted. In both
    cases the model, the hook and the table component of the view stay
    as they were, and so do the earlier submissions. *)
Theorem handleDownload_unbound_throws
    (globals : JsObj) (v : View) (file_format : JsValue) :
  (globals !! "reference_genome_uid" = None ->
   handleDownload globals v file_format =
     Throw (ReferenceError "reference_genome_uid")
       (mkView (model_uid v) (hook v)
          (mkForm [hiddenInput (VStr "file_format") file_format]
             (submitted (form v)))
          (datatableComponent v))) /\
  (is_Some (globals !! "reference_genome_uid") ->
   completed (handleDownload globals v file_format) = true) /\
  model_uid (stateOf (handleDownload globals v file_format)) = model_uid v /\
  hook (stateOf (handleDownload globals v file_format)) = hook v /\
  datatableComponent (stateOf (handleDownload globals v file_format)) =
    datatableComponent v /\
  (submitted (form v)) `prefix_of`
    (submitted (form (stateOf (handleDownload globals v file_format)))).
Proof.
  split; [|split].
  - intros Hg. unfold handleDownload. by rewrite Hg.
  - intros [g Hg]. by rewrite handleDownload_completed, Hg.
  - destruct (handleDownload_frame globals v file_format) as (-> & -> & ->).
    repeat split. rewrite handleDownload_form.
    destruct (globals !! _); simpl; [by apply prefix_app_r | done].
Qed.

Section WithBase.
Context `{AbstractDataTableComponent}.

(** X16: drawing the table of the single Reference-Genome view destroys
    the previous table component if there is one and then makes exactly
    one request, a GET to /_/single_ref_genome whose only parameter is
    the uid of the model; the new component has no controls template,
    so it requests nothing more when the response arrives. *)
Theorem single_view_redraw (v : View) (response : JsObj) :
  snd (redrawDatatable v) =
    match datatableComponent v with
    | Some _ => [Destroy]
    | None => []
    end ++
    [Get (VStr "/_/single_ref_genome")
       (VObj {[ "referenceGenomeUid" := model_uid v ]})] /\
  match datatableComponent (fst (redrawDatatable v)) with
  | Some c =>
      options c = componentOptions v /\
      requests (snd (onServerResponse c response)) = []
  | None => False
  end.
Proof.
  split.
  - unfold redrawDatatable, initialize; simpl. by destruct (datatableComponent v).
  - assert (Hc : datatableComponent (fst (redrawDatatable v)) =
                   Some (mkComponent (componentOptions v) (hook v) None None
                           VUndefined VUndefined)) by reflexivity.
    rewrite Hc. split; [done|].
    destruct (onServerResponse_renders
                (mkComponent (componentOptions v) (hook v) None None
                   VUndefined VUndefined) response) as (_ & _ & _ & Hreq).
    by rewrite Hreq.
Qed.

End WithBase.

End RefGenomeViewMore.

(** ** More on gd.RefGenomeListView *)

Section RefGenomeListViewMore.
Import RefGenomeListView RefGenomeListViewRuns.
Context `{AbstractDataTableComponent}.

Lemma handleAll_cons (v : View) (s : Signal) (rest : list Signal) :
  handleAll v (s :: rest) =
    (fst (handleAll (fst (handle v s)) rest),
     snd (handle v s) ++ snd (handleAll (fst (handle v s)) rest)).
Proof.
  simpl. destruct (handle v s) as [v1 t1]. simpl.
  by destruct (handleAll v1 rest).
Qed.

(** What one signal does, in the four cases. *)
Lemma handle_cases (v : View) (s : Signal) :
  (handle v s = (v, [])) \/
  (s = DONE_CONTROLS_REDRAW /\ handle v s = decorateControls v) \/
  (s = MODELS_UPDATED /\ refGenomeControlsComponent v = true /\
   handle v s = redrawDatatable v) \/
  (s = TOGGLE_DE_NOVO /\ refGenomeControlsComponent v = true /\
   handle v s = toggleDeNovo v).
Proof.
  destruct s; simpl.
  - destruct (datatableComponent v); [right; left | left]; done.
  - destruct (refGenomeControlsComponent v); [right; right; left | left]; done.
  - destruct (refGenomeControlsComponent v); [right; right; right | left]; done.
Qed.

Lemma redrawDatatable_trace (v : View) :
  exists c : Component,
    datatableComponent (fst (redrawDatatable v)) = Some c /\
    snd (redrawDatatable v) =
      match datatableComponent v with
      | Some _ => [Destroy]
      | None => []
      end ++
      [Get (VStr "/_/ref_genomes") (VObj (requestDataOf v));
       ListenTo "DONE_CONTROLS_REDRAW"].
Proof.
  unfold redrawDatatable, initialize; simpl. eexists. split; [done|].
  by destruct (datatableComponent v).
Qed.

Lemma handle_model_uid (v : View) (s : Signal) :
  model_uid (fst (handle v s)) = model_uid v.
Proof.
  destruct (handle_cases v s) as [->|[(_ & ->)|[(_ & _ & ->)|(_ & _ & ->)]]];
    done.
Qed.

Lemma handle_requests (v : View) (s : Signal) :
  requests (snd (handle v s)) = [] \/
  requests (snd (handle v s)) =
    [Get (VStr "/_/ref_genomes") (VObj (requestDataOf (fst (handle v s))))].
Proof.
  destruct (handle_cases v s) as [->|[(_ & ->)|[(_ & _ & ->)|(_ & _ & ->)]]].
  - by left.
  - by left.
  - right. by rewrite redrawDatatable_requests.
  - right. unfold toggleDeNovo. by rewrite redrawDatatable_requests.
Qed.

(** X17: whatever signals the view handles, in whatever order, the
    project uid it sends never changes: every request of the run is a
    GET to /_/ref_genomes with the uid of the model as projectUid and
    with show_de_novo 0 or 1. *)
Theorem signal_run_requests (v : View) (signals : list Signal) :
  model_uid (fst (handleAll v signals)) = model_uid v /\
  Forall
    (fun e => exists flag : bool,
       e = Get (VStr "/_/ref_genomes")
             (VObj {[ "projectUid" := model_uid v;
                      "show_de_novo" := VNum (if flag then 1 else 0) ]}))
    (requests (snd (handleAll v signals))).
Proof.
  revert v. induction signals as [|s rest IH]; intros v.
  - split; [done | constructor].
  - rewrite handleAll_cons; simpl.
    destruct (IH (fst (handle v s))) as [Huid Hreq].
    rewrite handle_model_uid in Huid, Hreq.
    split; [done|]. rewrite requests_app. apply Forall_app. split; [|done].
    destruct (handle_requests v s) as [->| ->]; [constructor|].
    constructor; [|constructor].
    exists (truthy (show_de_novo (fst (handle v s)))).
    unfold requestDataOf, deNovoParam. by rewrite handle_model_uid.
Qed.

Lemma handle_component (v : View) (s : Signal) :
  is_Some (datatableComponent v) ->
  is_Some (datatableComponent (fst (handle v s))) /\
  destroys (snd (handle v s)) = length (requests (snd (handle v s))).
Proof.
  intros [c Hc].
  assert (Hredraw : forall w, datatableComponent w = Some c ->
            is_Some (datatableComponent (fst (redrawDatatable w))) /\
            destroys (snd (redrawDatatable w)) =
              length (requests (snd (redrawDatatable w)))).
  { intros w Hw. destruct (redrawDatatable_trace w) as (c' & -> & ->).
    rewrite Hw. split; [by eexists | done]. }
  destruct (handle_cases v s) as [->|[(_ & ->)|[(_ & _ & ->)|(_ & _ & ->)]]].
  - split; [by eexists | done].
  - simpl. split; [by eexists | done].
  - by apply Hredraw.
  - unfold toggleDeNovo. by apply Hredraw.
Qed.

Lemma destroys_app (t u : list Effect) :
  destroys (t ++ u) = destroys t + destroys u.
Proof. unfold destroys. by rewrite List.filter_app, length_app. Qed.

(** X18: once the view has a table component it never holds two: in any
    run of signals every request for a new table is paired with the
    destruction of the component it replaces, and the view still has a
    component at the end. *)
Theorem signal_run_destroys_before_redraw (v : View) (signals : list Signal) :
  is_Some (datatableComponent v) ->
  is_Some (datatableComponent (fst (handleAll v signals))) /\
  destroys (snd (handleAll v signals)) =
    length (requests (snd (handleAll v signals))).
Proof.
  revert v. induction signals as [|s rest IH]; intros v Hc.
  - by split.
  - rewrite handleAll_cons; simpl.
    destruct (handle_component v s Hc) as [Hc' Hone].
    destruct (IH _ Hc') as [Hlast Hrest].
    split; [done|].
    by rewrite destroys_app, requests_app, length_app, Hone, Hrest.
Qed.

Lemma handle_flag (v : View) (s : Signal) :
  refGenomeControlsComponent v = true ->
  refGenomeControlsComponent (fst (handle v s)) = true /\
  truthy (show_de_novo (fst (handle v s))) =
    xorb (truthy (show_de_novo v)) (isToggle s).
Proof.
  intros Hctl. destruct s; simpl; rewrite ?Hctl.
  - destruct (datatableComponent v); simpl; by rewrite xorb_false_r.
  - simpl. by rewrite xorb_false_r.
  - simpl. split; [done|]. by destruct (truthy (show_de_novo v)).
Qed.

(** X19: once the controls exist, the flag after any run of signals is
    the starting flag flipped once per TOGGLE_DE_NOVO in the run: an
    even number of toggles, with any other signals in between, brings
    show_de_novo back, an odd number leaves it flipped. *)
Theorem signal_run_flag_parity (v : View) (signals : list Signal) :
  refGenomeControlsComponent v = true ->
  truthy (show_de_novo (fst (handleAll v signals))) =
    xorb (truthy (show_de_novo v))
      (Nat.odd (length (List.filter isToggle signals))).
Proof.
  revert v. induction signals as [|s rest IH]; intros v Hctl.
  - simpl. by rewrite xorb_false_r.
  - rewrite handleAll_cons; simpl fst.
    destruct (handle_flag v s Hctl) as [Hctl' Hflag].
    rewrite (IH _ Hctl'), Hflag. simpl.
    destruct (isToggle s); simpl length.
    + rewrite Nat.odd_succ, <- Nat.negb_odd.
      destruct (truthy (show_de_novo v)), (Nat.odd _); reflexivity.
    + by rewrite xorb_false_r.
Qed.

End RefGenomeListViewMore.

(** ** The list views of sample_list_view.js *)

Section SampleListViewFacts.
Context `{AbstractDataTableComponent}.

(** X20: [render] of the samples view makes exactly one request, a GET
    to /_/samples whose only parameter is the uid of the model as
    projectUid, and destroys nothing, not even a table component drawn
    by an earlier [render]; when the response arrives, the new
    component requests the controls template of the samples with the
    same parameters. *)
Theorem sample_list_render (v : SampleListView.View) (response : JsObj) :
  requests (snd (SampleListView.render v)) =
    [Get (VStr "/_/samples") (VObj {[ "projectUid" := SampleListView.model_uid v ]})] /\
  (Destroy ∉ snd (SampleListView.render v)) /\
  match SampleListView.datatableComponent (fst (SampleListView.render v)) with
  | Some c =>
      requests (snd (onServerResponse c response)) =
        [ControlsGet (VStr "/_/templates/sample_list_controls")
           (VObj {[ "projectUid" := SampleListView.model_uid v ]})]
  | None => False
  end.
Proof.
  split; [done|]. split.
  - unfold SampleListView.render, initialize; simpl.
    intros Hin. repeat (apply elem_of_cons in Hin as [Hin|Hin]; [done|]).
    by apply not_elem_of_nil in Hin.
  - assert (Hc : SampleListView.datatableComponent
                   (fst (SampleListView.render v)) =
                 Some (mkComponent (SampleListView.componentOptions v)
                         (SampleListView.hook v) None None
                         VUndefined VUndefined)) by reflexivity.
    rewrite Hc.
    destruct (onServerResponse_renders
                (mkComponent (SampleListView.componentOptions v)
                   (SampleListView.hook v) None None VUndefined VUndefined)
                response) as (_ & _ & _ & Hreq).
    by rewrite Hreq.
Qed.

(** X21: the Reference-Genome list view that sample_list_view.js
    defines asks /_/ref_genomes with the project uid alone: its request
    carries no show_de_novo parameter, and it has no handler that could
    change what it sends. *)
Theorem plain_ref_genome_list_render (v : PlainRefGenomeListView.View) :
  exists data : JsObj,
    requests (snd (PlainRefGenomeListView.render v)) =
      [Get (VStr "/_/ref_genomes") (VObj data)] /\
    data !! "projectUid" = Some (PlainRefGenomeListView.model_uid v) /\
    data !! "show_de_novo" = None /\
    dom data = {[ "projectUid" ]}.
Proof.
  exists {[ "projectUid" := PlainRefGenomeListView.model_uid v ]}.
  unfold PlainRefGenomeListView.render, initialize; simpl.
  split; [done|]. split; [apply lookup_singleton_eq|].
  split; [done|]. apply dom_singleton_L.
Qed.

End SampleListViewFacts.

(** ** The statements above at the sample inputs *)

Section MoreInstances.
Import Samples MoreSamples Hosts HomeView.

Lemma ipv4regex_accepts_dotted_quads_witness :
  Regexp.test ipv4regex "10.0.255.1" = true /\
  dottedQuad (chars "10.0.255.1").
Proof.
  assert (Htest : Regexp.test ipv4regex "10.0.255.1" = true)
    by (vm_compute; reflexivity).
  split; [exact Htest|].
  exact (proj1 (ipv4regex_accepts_dotted_quads "10.0.255.1") Htest).
Defined.

Lemma ec2regex_accepts_ec2_hosts_witness :
  Regexp.test ec2regex "ec2-54-1-2-3.compute-1.amazonaws.com" = true /\
  ec2Host (chars "ec2-54-1-2-3.compute-1.amazonaws.com").
Proof.
  assert (Htest :
    Regexp.test ec2regex "ec2-54-1-2-3.compute-1.amazonaws.com" = true)
    by (vm_compute; reflexivity).
  split; [exact Htest|].
  exact (proj1 (ec2regex_accepts_ec2_hosts _) Htest).
Defined.

Lemma server_response_is_displayed_witness :
  displayedRows (fst (@onServerResponse plainBase pendingComponent serverResponse))
    = Some rowsB /\
  displayedColumns (fst (@onServerResponse plainBase pendingComponent serverResponse))
    = Some columns.
Proof.
  destruct (@server_response_is_displayed plainBase pendingComponent
              serverResponse _ _ eq_refl eq_refl eq_refl eq_refl)
    as (_ & _ & _ & _ & _ & Hrows & Hcols).
  split; [exact Hrows | exact Hcols].
Defined.

Lemma server_target_defers_drawing_witness :
  serverTarget mixedOptions = Some (VStr "/_/samples") /\
  displayedRows (fst (@initialize plainBase mixedOptions hookElement)) = None /\
  snd (@initialize plainBase mixedOptions hookElement)
    = [Get (VStr "/_/samples") VUndefined].
Proof.
  split; [reflexivity|].
  destruct (@server_target_defers_drawing plainBase mixedOptions hookElement
              (VStr "/_/samples") eq_refl) as (_ & _ & _ & _ & Hrows & Htrace).
  split; [exact Hrows | exact Htrace].
Defined.

Lemma table_id_from_hook_id_witness :
  datatableId (fst (@updateDatatable plainBase (componentOn (Some "hook-a"))
                      rowsA columns)) <>
  datatableId (fst (@updateDatatable plainBase (componentOn (Some "hook-b"))
                      rowsA columns)) /\
  datatableId (fst (@updateDatatable plainBase (componentOn None) rowsA columns))
    = Some "undefined-datatable".
Proof.
  split.
  - apply (proj1 (@table_id_from_hook_id plainBase (componentOn (Some "hook-a"))
                    (componentOn (Some "hook-b")) rowsA columns rowsA columns)
             "hook-a" "hook-b" eq_refl eq_refl).
    discriminate.
  - apply (proj2 (@table_id_from_hook_id plainBase (componentOn None)
                    (componentOn None) rowsA columns rowsA columns) eq_refl).
Defined.

Lemma downloads_do_not_accumulate_witness :
  boundGlobals !! "reference_genome_uid" = Some (VStr "rg-1") /\
  RefGenomeView.submitted
    (RefGenomeView.form
       (stateOf (RefGenomeView.handleDownload boundGlobals
          (stateOf (RefGenomeView.handleDownload boundGlobals genomeView
                      (VStr "fasta")))
          (VStr "genbank")))) =
    [[RefGenomeView.hiddenInput (VStr "file_format") (VStr "fasta");
      RefGenomeView.hiddenInput (VStr "reference_genome_uid") (VStr "rg-1")];
     [RefGenomeView.hiddenInput (VStr "file_format") (VStr "genbank");
      RefGenomeView.hiddenInput (VStr "reference_genome_uid") (VStr "rg-1")]].
Proof.
  assert (Hg : boundGlobals !! "reference_genome_uid" = Some (VStr "rg-1"))
    by reflexivity.
  split; [exact Hg|].
  destruct (downloads_do_not_accumulate boundGlobals genomeView (VStr "rg-1")
              (VStr "fasta") (VStr "genbank") Hg eq_refl eq_refl eq_refl)
    as (_ & _ & Hsub).
  exact Hsub.
Defined.

Lemma handleDownload_unbound_throws_witness :
  completed (RefGenomeView.handleDownload ∅ genomeView (VStr "fasta")) = false /\
  completed (RefGenomeView.handleDownload boundGlobals genomeView (VStr "fasta"))
    = true.
Proof.
  split.
  - destruct (handleDownload_unbound_throws ∅ genomeView (VStr "fasta"))
      as (Hthrow & _).
    by rewrite (Hthrow eq_refl).
  - destruct (handleDownload_unbound_throws boundGlobals genomeView (VStr "fasta"))
      as (_ & Hdone & _).
    apply Hdone. by eexists.
Defined.

Lemma signal_run_destroys_before_redraw_witness :
  is_Some (RefGenomeListView.datatableComponent renderedListView) /\
  RefGenomeListViewRuns.destroys
    (snd (@RefGenomeListViewRuns.handleAll plainBase renderedListView
            [RefGenomeListView.DONE_CONTROLS_REDRAW;
             RefGenomeListView.TOGGLE_DE_NOVO;
             RefGenomeListView.MODELS_UPDATED])) =
  length
    (requests
       (snd (@RefGenomeListViewRuns.handleAll plainBase renderedListView
               [RefGenomeListView.DONE_CONTROLS_REDRAW;
                RefGenomeListView.TOGGLE_DE_NOVO;
                RefGenomeListView.MODELS_UPDATED]))).
Proof.
  assert (Hc : is_Some (RefGenomeListView.datatableComponent renderedListView))
    by (by eexists).
  split; [exact Hc|].
  apply (@signal_run_destroys_before_redraw plainBase renderedListView _ Hc).
Defined.

Lemma signal_run_flag_parity_witness :
  RefGenomeListView.refGenomeControlsComponent decoratedListView = true /\
  truthy
    (RefGenomeListView.show_de_novo
       (fst (@RefGenomeListViewRuns.handleAll plainBase decoratedListView
               [RefGenomeListView.TOGGLE_DE_NOVO;
                RefGenomeListView.MODELS_UPDATED;
                RefGenomeListView.TOGGLE_DE_NOVO]))) = true.
Proof.
  split; [reflexivity|].
  exact (@signal_run_flag_parity plainBase decoratedListView
           [RefGenomeListView.TOGGLE_DE_NOVO;
            RefGenomeListView.MODELS_UPDATED;
            RefGenomeListView.TOGGLE_DE_NOVO] eq_refl).
Defined.

End MoreInstances.
